(** * SQLiteORM (sqliteDB.py): transaction wrapper, query building, error paths

    A shallow embedding of the class [SQLiteORM].  The sqlite3 connection and
    its cursor are an external collaborator: they appear as an abstract
    [Engine] whose calls either succeed or raise [sqlite3.Error].  The methods
    of the class are state-passing computations over a [store] that holds the
    engine state, the connection handle, the flag [in_transaction] and a log
    of the engine calls issued so far. *)

From Stdlib Require Import String Ascii List ZArith Bool DecimalString Lia.
Import ListNotations.
Open Scope list_scope.
Open Scope string_scope.

Set Implicit Arguments.

(** ** Python values *)

(** The values that reach the ORM as column values.  A float and a bytes
    object are carried by their [repr] text: the code only tests their type
    ([isinstance]) and formats them ([str(val)] in [delete]). *)
Inductive value : Type :=
| VNone
| VBool (b : bool)
| VInt (z : Z)
| VFloat (repr : string)
| VStr (s : string)
| VBytes (repr : string).

Definition row := list value.

(** [**kwargs] and the [filters] dict: insertion-ordered, so a list of
    (key, value) pairs in insertion order. *)
Definition kwargs := list (string * value).

Definition keys (kw : kwargs) : list string := map fst kw.
Definition values (kw : kwargs) : list value := map snd kw.

(** Python truthiness of a dict or list: empty is false. *)
Definition truthy {A} (l : list A) : bool :=
  match l with [] => false | _ :: _ => true end.

Definition value_eq_dec (a b : value) : {a = b} + {a <> b}.
Proof.
  decide equality;
    solve [ apply Bool.bool_dec | apply Z.eq_dec | apply string_dec ].
Defined.

(** [str(z)] for an int. *)
Definition str_of_Z (z : Z) : string := NilZero.string_of_int (Z.to_int z).

(** [str(val)], as [f"{val}"] formats it. *)
Definition py_str (v : value) : string :=
  match v with
  | VNone => "None"
  | VBool true => "True"
  | VBool false => "False"
  | VInt z => str_of_Z z
  | VFloat r => r
  | VStr s => s
  | VBytes r => r
  end.

(** [sep.join(parts)] *)
Definition join (sep : string) (parts : list string) : string :=
  String.concat sep parts.

(** [s.upper()] on ASCII text: the letters a-z are raised, every other
    character is kept.  Python's [str.upper] also maps letters outside
    ASCII (a dotless i becomes I), so the two coincide on ASCII text only;
    properties that depend on the letter case of a declared type are stated
    for declared types written in ASCII. *)
Definition upper_ascii (c : ascii) : ascii :=
  let n := nat_of_ascii c in
  if (97 <=? n)%nat && (n <=? 122)%nat then ascii_of_nat (n - 32) else c.

Fixpoint upper (s : string) : string :=
  match s with
  | EmptyString => EmptyString
  | String c s' => String (upper_ascii c) (upper s')
  end.

(** ** Exceptions and outcomes *)

Inductive exn : Type :=
| SqliteError (msg : string)      (* sqlite3.Error and its subclasses *)
| ValueError (msg : string)
| TypeError (msg : string)
| IndexError (msg : string)
| AttributeError (msg : string)
| PyException (msg : string).     (* raise Exception(...) *)

Inductive outcome (A : Type) : Type :=
| Return (a : A)
| Raise (e : exn).
Arguments Return {A} a.
Arguments Raise {A} e.

(** ** The engine: sqlite3 connection and cursor *)

(** A call either returns normally or raises [sqlite3.Error] with a message
    ([inl msg]).  These are the two outcomes of a call that reaches SQLite.
    An exception that Python's binding layer raises on the way there, such
    as [OverflowError] for an [int] parameter outside 64 bits, is of neither
    kind and is not modelled: no handler of the class catches it, and the
    properties below are stated for calls that return or raise
    [sqlite3.Error]. *)
Definition reply (A : Type) : Type := (string + A)%type.

Class Engine (E : Type) : Type := {
  (* self.cursor.execute(query, params) *)
  cursor_execute : string -> list value -> E -> reply unit * E;
  (* self.cursor.fetchone() *)
  cursor_fetchone : E -> reply (option row) * E;
  (* self.cursor.fetchall() *)
  cursor_fetchall : E -> reply (list row) * E;
  (* self.cursor.lastrowid *)
  cursor_lastrowid : E -> value;
  (* self.cursor.rowcount *)
  cursor_rowcount : E -> Z;
  (* self.connection.execute(query) *)
  conn_execute : string -> E -> reply unit * E;
  (* self.connection.commit() *)
  conn_commit : E -> reply unit * E;
  (* self.connection.rollback() *)
  conn_rollback : E -> reply unit * E;
  (* self.connection.close() *)
  conn_close : E -> reply unit * E
}.

(** What the engine answers to a query: [execute] followed by [fetchone],
    or by [fetchall]; [inl] when either call raises. *)
Definition select_one {E} `{Engine E} (query : string) (params : list value)
  (e : E) : reply (option row) :=
  match cursor_execute query params e with
  | (inl msg, _) => inl msg
  | (inr _, e1) => fst (cursor_fetchone e1)
  end.

Definition select_all {E} `{Engine E} (query : string) (params : list value)
  (e : E) : reply (list row) :=
  match cursor_execute query params e with
  | (inl msg, _) => inl msg
  | (inr _, e1) => fst (cursor_fetchall e1)
  end.


(** Engine calls as they are logged. *)
Inductive call : Type :=
| CursorExecute (query : string) (params : list value)
| ConnExecute (query : string)
| ConnCommit
| ConnRollback
| ConnClose.

(** A logged call and whether it returned normally. *)
Record event : Type := Ev { ev_call : call; ev_ok : bool }.

Definition replied_ok {A} (r : reply A) : bool :=
  match r with inl _ => false | inr _ => true end.

(** ** The store and the computation monad *)

Section ORM.

Context {E : Type} `{Engine E}.

(** The instance attributes of [SQLiteORM], and the log of engine calls.
    [connection] is [false] once [close] has set the attribute to [None];
    the cursor object is kept for the whole life of the instance. *)
Record store : Type := mkStore {
  engine : E;
  connection : bool;
  in_transaction : bool;
  calls : list event
}.

(** [__init__]: a fresh connection, no transaction, nothing issued yet. *)
Definition init (e : E) : store := mkStore e true false [].

(** A method body: runs on a store, returns or raises, leaves a store.
    Mutations made before an exception is raised are kept. *)
Definition M (A : Type) : Type := store -> outcome A * store.

Definition ret {A} (a : A) : M A := fun s => (Return a, s).

Definition raise {A} (e : exn) : M A := fun s => (Raise e, s).

Definition bind {A B} (m : M A) (k : A -> M B) : M B := fun s =>
  match m s with
  | (Return a, s') => k a s'
  | (Raise e, s') => (Raise e, s')
  end.

(** [try: body except sqlite3.Error as e: handler(e)]; any other exception
    passes through. *)
Definition try_sqlite {A} (body : M A) (handler : string -> M A) : M A :=
  fun s =>
    match body s with
    | (Raise (SqliteError msg), s') => handler msg s'
    | r => r
    end.

Notation "x <- m ;; k" := (bind m (fun x => k))
  (at level 61, m at next level, right associativity).
Notation "m ;; k" := (bind m (fun _ => k))
  (at level 61, right associativity).

Definition with_engine (e : E) (s : store) : store :=
  mkStore e (connection s) (in_transaction s) (calls s).

Definition logged (c : call) (ok : bool) (s : store) : store :=
  mkStore (engine s) (connection s) (in_transaction s) (calls s ++ [Ev c ok])%list.

Definition of_reply {A} (r : reply A) : M A :=
  match r with
  | inl msg => raise (SqliteError msg)
  | inr a => ret a
  end.

(** [self.in_transaction] read and written. *)
Definition read_in_transaction : M bool := fun s => (Return (in_transaction s), s).

Definition set_in_transaction (b : bool) : M unit := fun s =>
  (Return tt, mkStore (engine s) (connection s) b (calls s)).

(** Cursor calls. *)
Definition execute (query : string) (params : list value) : M unit := fun s =>
  let (r, e) := cursor_execute query params (engine s) in
  of_reply r (logged (CursorExecute query params) (replied_ok r) (with_engine e s)).

Definition fetchone : M (option row) := fun s =>
  let (r, e) := cursor_fetchone (engine s) in of_reply r (with_engine e s).

Definition fetchall : M (list row) := fun s =>
  let (r, e) := cursor_fetchall (engine s) in of_reply r (with_engine e s).

Definition lastrowid : M value := fun s => (Return (cursor_lastrowid (engine s)), s).

Definition rowcount : M Z := fun s => (Return (cursor_rowcount (engine s)), s).

(** The error of an attribute access on [None]. *)
Definition none_has_no (attr : string) : exn :=
  AttributeError ("'NoneType' object has no attribute '" ++ attr ++ "'").

(** Calls through [self.connection]: an attribute access on [None] raises
    [AttributeError] before anything reaches the engine. *)
Definition on_connection (attr : string) (c : call) (f : E -> reply unit * E)
  : M unit := fun s =>
  if connection s then
    let (r, e) := f (engine s) in
    of_reply r (logged c (replied_ok r) (with_engine e s))
  else
    (Raise (none_has_no attr), s).

Definition connection_execute (query : string) : M unit :=
  on_connection "execute" (ConnExecute query) (conn_execute query).

Definition connection_commit : M unit :=
  on_connection "commit" ConnCommit conn_commit.

Definition connection_rollback : M unit :=
  on_connection "rollback" ConnRollback conn_rollback.

Definition connection_close : M unit :=
  on_connection "close" ConnClose conn_close.

(** ** Transaction controls (lines 203-235) *)

Definition BEGIN : string := "BEGIN TRANSACTION;".

Definition begin_transaction : M unit :=
  try_sqlite
    (connection_execute BEGIN ;;
     set_in_transaction true)
    (fun e => raise (PyException ("Transaction start failed: " ++ e))).

Definition commit_transaction : M unit :=
  try_sqlite
    (connection_commit ;;
     set_in_transaction false)
    (fun e =>
       connection_rollback ;;
       set_in_transaction false ;;
       raise (PyException ("Transaction commit failed: " ++ e))).

Definition rollback_transaction : M unit :=
  flag <- read_in_transaction ;;
  if flag then
    try_sqlite
      (connection_rollback ;;
       set_in_transaction false)
      (fun e => raise (PyException ("Transaction rollback failed: " ++ e)))
  else ret tt.

(** [close] (lines 237-245) *)
Definition close : M unit :=
  try_sqlite
    (fun s =>
       if connection s then
         (connection_close ;;
          (fun s' => (Return tt, mkStore (engine s') false (in_transaction s') (calls s')))) s
       else (Return tt, s))
    (fun e => raise (PyException ("Connection close failed: " ++ e))).

(** ** Query text *)

(** [' AND '.join([f'{col}=?' for col in kwargs.keys()])] *)
Definition placeholders_eq (sep : string) (kw : kwargs) : string :=
  join sep (map (fun col => col ++ "=?") (keys kw)).

Definition create_table_query (table_name : string) (columns : list (string * string)) : string :=
  let column_definitions :=
    join ", " (map (fun '(col, dtype) => col ++ " " ++ dtype) columns) in
  "CREATE TABLE IF NOT EXISTS " ++ table_name ++ " (" ++ column_definitions ++ ");".

Definition table_info_query (table_name : string) : string :=
  "PRAGMA table_info(" ++ table_name ++ ");".

Definition create_query (table_name : string) (kw : kwargs) : string :=
  let columns := join ", " (keys kw) in
  let placeholders := join ", " (map (fun _ => "?") (values kw)) in
  "INSERT INTO " ++ table_name ++ " (" ++ columns ++ ") VALUES (" ++ placeholders ++ ");".

Definition get_query (table_name : string) (kw : kwargs) : string :=
  let conditions := placeholders_eq " AND " kw in
  "SELECT * FROM " ++ table_name ++ " WHERE " ++ conditions ++ " LIMIT 1;".

Definition filter_query (table_name : string) (kw : kwargs) : string :=
  if truthy kw then
    let conditions := placeholders_eq " AND " kw in
    "SELECT * FROM " ++ table_name ++ " WHERE " ++ conditions ++ ";"
  else "SELECT * FROM " ++ table_name ++ ";".

Definition update_query (table_name : string) (filters kw : kwargs) : string :=
  let set_clause := placeholders_eq ", " kw in
  let filter_clause := placeholders_eq " AND " filters in
  "UPDATE " ++ table_name ++ " SET " ++ set_clause ++ " WHERE " ++ filter_clause ++ ";".

(** [delete] formats the values into the text (line 147). *)
Definition delete_query (table_name : string) (kw : kwargs) : string :=
  let conditions :=
    join " AND " (map (fun '(col, val) => col ++ "='" ++ py_str val ++ "'") kw) in
  "DELETE FROM " ++ table_name ++ " WHERE " ++ conditions ++ ";".

Definition all_query (table_name : string) : string :=
  "SELECT * FROM " ++ table_name ++ ";".

Definition exists_query (table_name : string) (kw : kwargs) : string :=
  let conditions := placeholders_eq " AND " kw in
  "SELECT 1 FROM " ++ table_name ++ " WHERE " ++ conditions ++ " LIMIT 1;".

Definition count_query (table_name : string) (kw : kwargs) : string :=
  if truthy kw then
    let conditions := placeholders_eq " AND " kw in
    "SELECT COUNT(*) FROM " ++ table_name ++ " WHERE " ++ conditions ++ ";"
  else "SELECT COUNT(*) FROM " ++ table_name ++ ";".

Definition table_exists_query : string :=
  "SELECT name FROM sqlite_master WHERE type='table' AND name=?;".

Definition drop_table_query (table_name : string) : string :=
  "DROP TABLE IF EXISTS " ++ table_name ++ ";".

(** ** Schema lookup and DDL (lines 14-34, 247-277) *)

(** A Python dict whose keys are values: pairs in insertion order; setting a
    key that is present replaces its value in place.  The code only looks
    keys up by [str], where Python's equality is equality of the text. *)
Definition pydict := list (value * value).

Fixpoint dict_set (k v : value) (d : pydict) : pydict :=
  match d with
  | [] => [(k, v)]
  | (k', v') :: d' =>
      if value_eq_dec k k' then (k', v) :: d' else (k', v') :: dict_set k v d'
  end.

Fixpoint dict_get (k : value) (d : pydict) : option value :=
  match d with
  | [] => None
  | (k', v') :: d' => if value_eq_dec k k' then Some v' else dict_get k d'
  end.

(** [{col[1]: col[2] for col in schema}] *)
Fixpoint schema_dict (rows : list row) (acc : pydict) : M pydict :=
  match rows with
  | [] => ret acc
  | col :: rest =>
      match nth_error col 1, nth_error col 2 with
      | Some name, Some dtype => schema_dict rest (dict_set name dtype acc)
      | _, _ => raise (IndexError "tuple index out of range")
      end
  end.

Definition create_table (table_name : string) (columns : list (string * string)) : M unit :=
  try_sqlite
    (execute (create_table_query table_name columns) [] ;;
     connection_commit)
    (fun e => raise (PyException ("Table creation failed: " ++ e))).

Definition get_table_schema (table_name : string) : M pydict :=
  try_sqlite
    (execute (table_info_query table_name) [] ;;
     schema <- fetchall ;;
     schema_dict schema [])
    (fun _ => ret []).

Definition introspect_table (table_name : string) : M (list row) :=
  try_sqlite
    (execute (table_info_query table_name) [] ;;
     fetchall)
    (fun _ => ret []).

Definition is_not_none {A} (o : option A) : bool :=
  match o with Some _ => true | None => false end.

Definition table_exists (table_name : string) : M bool :=
  try_sqlite
    (execute table_exists_query [VStr table_name] ;;
     r <- fetchone ;;
     ret (is_not_none r))
    (fun _ => ret false).

Definition drop_table (table_name : string) : M unit :=
  try_sqlite
    (execute (drop_table_query table_name) [] ;;
     connection_commit)
    (fun e =>
       connection_rollback ;;
       raise (PyException ("Table drop failed: " ++ e))).

(** ** Insert (lines 36-80) *)

(** [isinstance(value, int)]: [bool] is a subclass of [int]. *)
Definition isinstance_int (v : value) : bool :=
  match v with VInt _ | VBool _ => true | _ => false end.

Definition isinstance_str (v : value) : bool :=
  match v with VStr _ => true | _ => false end.

(** [isinstance(value, (int, float))] *)
Definition isinstance_int_float (v : value) : bool :=
  match v with VInt _ | VBool _ | VFloat _ => true | _ => false end.

(** [isinstance(value, (bytes, bytearray))] *)
Definition isinstance_bytes (v : value) : bool :=
  match v with VBytes _ => true | _ => false end.

Fixpoint for_each {A} (l : list A) (body : A -> M unit) : M unit :=
  match l with
  | [] => ret tt
  | a :: l' => body a ;; for_each l' body
  end.

(** The body of the loop of lines 45-56. *)
Definition check_column (table_name : string) (schema : pydict)
  (col : string) (v : value) : M unit :=
  match dict_get (VStr col) schema with
  | None =>
      raise (ValueError ("Column '" ++ col ++ "' does not exist in table '" ++ table_name ++ "'"))
  | Some (VStr declared) =>
      let expected_type := upper declared in
      if (expected_type =? "INTEGER") && negb (isinstance_int v) then
        raise (TypeError ("Value for column '" ++ col ++ "' should be of type INTEGER"))
      else if (expected_type =? "TEXT") && negb (isinstance_str v) then
        raise (TypeError ("Value for column '" ++ col ++ "' should be of type TEXT"))
      else if (expected_type =? "REAL") && negb (isinstance_int_float v) then
        raise (TypeError ("Value for column '" ++ col ++ "' should be of type REAL"))
      else if (expected_type =? "BLOB") && negb (isinstance_bytes v) then
        raise (TypeError ("Value for column '" ++ col ++ "' should be of type BLOB"))
      else ret tt
  | Some _ => raise (AttributeError "object has no attribute 'upper'")
  end.

(** Lines 38-56: the checks made before the [try]. *)
Definition create_checks (table_name : string) (kw : kwargs) : M unit :=
  (if negb (truthy kw) then raise (ValueError "No data provided for insertion")
   else ret tt) ;;
  schema <- get_table_schema table_name ;;
  (if negb (truthy schema) then
     raise (ValueError ("Table '" ++ table_name ++ "' does not exist or could not be retrieved"))
   else ret tt) ;;
  for_each kw (fun '(col, v) => check_column table_name schema col v).

(** The opening of each mutating method (lines 60-63, 118-121, 142-145):
    [in_self_trasaction = False], then [begin_transaction()] and
    [in_self_trasaction = True] when no transaction is flagged.  The result
    is the local [in_self_trasaction]. *)
Definition open_if_needed : M bool :=
  flag <- read_in_transaction ;;
  if negb flag then begin_transaction ;; ret true else ret false.

(** The closing of each mutating method (lines 72-73, 130-131, 154-155):
    [if not self.in_transaction or in_self_trasaction: commit_transaction()]. *)
Definition commit_if_opened (in_self_trasaction : bool) : M unit :=
  flag <- read_in_transaction ;;
  if negb flag || in_self_trasaction then commit_transaction else ret tt.

(** Lines 58-80: the [try] block and its handler. *)
Definition create_try (table_name : string) (kw : kwargs) : M value :=
  try_sqlite
    (in_self_trasaction <- open_if_needed ;;
     execute (create_query table_name kw) (values kw) ;;
     commit_if_opened in_self_trasaction ;;
     lastrowid)
    (fun e =>
       flag <- read_in_transaction ;;
       (if flag then rollback_transaction else ret tt) ;;
       raise (PyException ("Insertion failed: " ++ e))).

Definition create (table_name : string) (kw : kwargs) : M value :=
  create_checks table_name kw ;;
  create_try table_name kw.

(** ** Update and delete (lines 112-161) *)

Definition update_checks (filters kw : kwargs) : M unit :=
  if negb (truthy filters) || negb (truthy kw) then
    raise (ValueError "Both filters and update data must be provided")
  else ret tt.

Definition update_try (table_name : string) (filters kw : kwargs) : M Z :=
  try_sqlite
    (in_self_trasaction <- open_if_needed ;;
     execute (update_query table_name filters kw) (values kw ++ values filters)%list ;;
     commit_if_opened in_self_trasaction ;;
     rowcount)
    (fun e =>
       connection_rollback ;;
       raise (PyException ("Update failed: " ++ e))).

Definition update (table_name : string) (filters kw : kwargs) : M Z :=
  update_checks filters kw ;;
  update_try table_name filters kw.

Definition delete (table_name : string) (kw : kwargs) : M Z :=
  try_sqlite
    (in_self_trasaction <- open_if_needed ;;
     execute (delete_query table_name kw) [] ;;
     commit_if_opened in_self_trasaction ;;
     rowcount)
    (fun e =>
       connection_rollback ;;
       raise (PyException ("Deletion failed: " ++ e))).

(** ** Reads (lines 82-110, 163-201) *)

Definition get (table_name : string) (kw : kwargs) : M (option row) :=
  (if negb (truthy kw) then raise (ValueError "No conditions provided for the query")
   else ret tt) ;;
  try_sqlite
    (execute (get_query table_name kw) (values kw) ;;
     fetchone)
    (fun _ => ret None).

Definition filter (table_name : string) (kw : kwargs) : M (list row) :=
  try_sqlite
    ((if negb (truthy kw) then execute (filter_query table_name kw) []
      else execute (filter_query table_name kw) (values kw)) ;;
     fetchall)
    (fun _ => ret []).

Definition all (table_name : string) : M (list row) :=
  try_sqlite
    (execute (all_query table_name) [] ;;
     fetchall)
    (fun _ => ret []).

Definition exists_ (table_name : string) (kw : kwargs) : M bool :=
  (if negb (truthy kw) then
     raise (ValueError "Conditions must be provided to check existence")
   else ret tt) ;;
  try_sqlite
    (execute (exists_query table_name kw) (values kw) ;;
     r <- fetchone ;;
     ret (is_not_none r))
    (fun _ => ret false).

(** [self.cursor.fetchone()[0]] *)
Definition first_column (r : option row) : M value :=
  match r with
  | None => raise (TypeError "'NoneType' object is not subscriptable")
  | Some [] => raise (IndexError "tuple index out of range")
  | Some (v :: _) => ret v
  end.

Definition count (table_name : string) (kw : kwargs) : M value :=
  try_sqlite
    ((if truthy kw then execute (count_query table_name kw) (values kw)
      else execute (count_query table_name kw) []) ;;
     r <- fetchone ;;
     first_column r)
    (fun _ => ret (VInt 0)).

(** ** The three mutating operations, uniformly *)

Inductive mutation : Type :=
| Insert (table_name : string) (kw : kwargs)
| Update (table_name : string) (filters kw : kwargs)
| Delete (table_name : string) (kw : kwargs).

(** The method call. *)
Definition run (m : mutation) : M value :=
  match m with
  | Insert t kw => create t kw
  | Update t filters kw => n <- update t filters kw ;; ret (VInt n)
  | Delete t kw => n <- delete t kw ;; ret (VInt n)
  end.

(** What runs before the [try]. *)
Definition checks (m : mutation) : M unit :=
  match m with
  | Insert t kw => create_checks t kw
  | Update _ filters kw => update_checks filters kw
  | Delete _ _ => ret tt
  end.

(** The statement passed to [self.cursor.execute] and its parameters. *)
Definition statement (m : mutation) : string :=
  match m with
  | Insert t kw => create_query t kw
  | Update t filters kw => update_query t filters kw
  | Delete t kw => delete_query t kw
  end.

Definition parameters (m : mutation) : list value :=
  match m with
  | Insert _ kw => values kw
  | Update _ filters kw => (values kw ++ values filters)%list
  | Delete _ _ => []
  end.

(** The value returned: [lastrowid] for insert, [rowcount] otherwise. *)
Definition result (m : mutation) (e : E) : value :=
  match m with
  | Insert _ _ => cursor_lastrowid e
  | _ => VInt (cursor_rowcount e)
  end.

(** The text put before the cause in the exception raised by the handler. *)
Definition failure_prefix (m : mutation) : string :=
  match m with
  | Insert _ _ => "Insertion failed: "
  | Update _ _ _ => "Update failed: "
  | Delete _ _ => "Deletion failed: "
  end.

(** The [except sqlite3.Error as e] clause of each method: [create] rolls
    back through [rollback_transaction] when the flag is set, [update] and
    [delete] call [self.connection.rollback()]. *)
Definition handler (m : mutation) (cause : string) : M value :=
  match m with
  | Insert _ _ =>
      flag <- read_in_transaction ;;
      (if flag then rollback_transaction else ret tt) ;;
      raise (PyException (failure_prefix m ++ cause))
  | _ =>
      connection_rollback ;;
      raise (PyException (failure_prefix m ++ cause))
  end.

(** The [try] statement of each method. *)
Definition attempt (m : mutation) : M value :=
  try_sqlite
    (in_self_trasaction <- open_if_needed ;;
     execute (statement m) (parameters m) ;;
     commit_if_opened in_self_trasaction ;;
     (fun s => (Return (result m (engine s)), s)))
    (handler m).

(** [update] and [delete] return a count, which [run] wraps: [r'] is the
    method's result and [r] the same with the count as a value. *)
Definition counted (r : outcome value * store) (r' : outcome Z * store) : Prop :=
  snd r' = snd r /\
  match fst r' with
  | Return n => fst r = Return (VInt n)
  | Raise e => fst r = Raise e
  end.

(** ** What the log says *)

(** The calls issued between an earlier store and a later one. *)
Definition new_calls (before after : store) : list event :=
  skipn (length (calls before)) (calls after).

End ORM.

Arguments store E : clear implicits.
Arguments M E A : clear implicits.

Definition is_begin (c : call) : bool :=
  match c with ConnExecute query => query =? BEGIN | _ => false end.

Definition is_commit (c : call) : bool :=
  match c with ConnCommit => true | _ => false end.

Definition is_rollback (c : call) : bool :=
  match c with ConnRollback => true | _ => false end.

(** No call of the log satisfies [p]. *)
Definition none_issued (p : call -> bool) (log : list event) : bool :=
  forallb (fun ev => negb (p (ev_call ev))) log.

(** Whether, by the log, a transaction has been opened by a begin that
    succeeded and not yet closed by a commit or rollback that succeeded
    (closing the connection ends it too). *)
Definition txn_step (open : bool) (ev : event) : bool :=
  match ev with
  | Ev (ConnExecute query) true => if query =? BEGIN then true else open
  | Ev ConnCommit true => false
  | Ev ConnRollback true => false
  | Ev ConnClose true => false
  | _ => open
  end.

Definition txn_open (log : list event) : bool := fold_left txn_step log false.

(** The invariant of the flag: it is set exactly when the log says a
    transaction is open. *)
Definition flag_agrees {E} (s : store E) : Prop :=
  in_transaction s = txn_open (calls s).

Definition is_validation_error (e : exn) : bool :=
  match e with ValueError _ | TypeError _ => true | _ => false end.

(** ** A scripted engine

    An engine small enough to run: it rejects the statements listed in
    [rejects] (a missing table, a syntax error), answers every other query
    with [answer], refuses everything once closed, and refuses a begin
    inside a transaction. *)
Module Scripted.

Record t : Type := mk {
  closed : bool;
  txn : bool;
  rejects : string -> option string;
  answer : string -> list row;
  pending : list row;
  commit_error : option string;
  rollback_error : option string;
  last_id : value;
  affected : Z
}.

Definition closed_msg : string := "Cannot operate on a closed database.".

Definition set_pending (rows : list row) (e : t) : t :=
  mk (closed e) (txn e) (rejects e) (answer e) rows (commit_error e)
     (rollback_error e) (last_id e) (affected e).

Definition set_txn (b : bool) (e : t) : t :=
  mk (closed e) b (rejects e) (answer e) (pending e) (commit_error e)
     (rollback_error e) (last_id e) (affected e).

Definition set_closed (e : t) : t :=
  mk true false (rejects e) (answer e) [] (commit_error e)
     (rollback_error e) (last_id e) (affected e).

Definition run_statement (query : string) (e : t) : reply unit * t :=
  if closed e then (inl closed_msg, e)
  else match rejects e query with
       | Some msg => (inl msg, e)
       | None => (inr tt, set_pending (answer e query) e)
       end.

Definition fetch_one (e : t) : reply (option row) * t :=
  if closed e then (inl closed_msg, e)
  else match pending e with
       | [] => (inr None, e)
       | r :: rest => (inr (Some r), set_pending rest e)
       end.

Definition fetch_all (e : t) : reply (list row) * t :=
  if closed e then (inl closed_msg, e)
  else (inr (pending e), set_pending [] e).

Definition begin (query : string) (e : t) : reply unit * t :=
  if closed e then (inl closed_msg, e)
  else if txn e then (inl "cannot start a transaction within a transaction", e)
  else (inr tt, set_txn true e).

Definition finish (failure : option string) (e : t) : reply unit * t :=
  if closed e then (inl closed_msg, e)
  else match failure with
       | Some msg => (inl msg, e)
       | None => (inr tt, set_txn false e)
       end.

#[global] Instance sqlite : Engine t := {
  cursor_execute := fun query _ => run_statement query;
  cursor_fetchone := fetch_one;
  cursor_fetchall := fetch_all;
  cursor_lastrowid := last_id;
  cursor_rowcount := affected;
  conn_execute := begin;
  conn_commit := fun e => finish (commit_error e) e;
  conn_rollback := fun e => finish (rollback_error e) e;
  conn_close := fun e => (inr tt, set_closed e)
}.

(** A database with the table [users(id, name, age)] of the tests, holding
    Alice: the schema query lists the three columns, [SELECT *] answers with
    her row, [SELECT 1] and [SELECT COUNT( * )] with a single 1. *)
Definition users_schema : list row :=
  [ [VInt 0; VStr "id"; VStr "INTEGER"; VInt 0; VNone; VInt 1];
    [VInt 1; VStr "name"; VStr "TEXT"; VInt 0; VNone; VInt 0];
    [VInt 2; VStr "age"; VStr "INTEGER"; VInt 0; VNone; VInt 0] ].

Definition users_answer (query : string) : list row :=
  if query =? "PRAGMA table_info(users);" then users_schema
  else if String.prefix "SELECT * " query then [[VInt 1; VStr "Alice"; VInt 30]]
  else if String.prefix "SELECT " query then [[VInt 1]]
  else [].

Definition users_db (rejects : string -> option string) : t :=
  mk false false rejects users_answer [] None None (VInt 1) 1.

Definition accepts_all (query : string) : option string := None.

(** The engine rejects exactly [bad], with message [msg]. *)
Definition rejecting (bad msg : string) (query : string) : option string :=
  if query =? bad then Some msg else None.

(** Stores over this engine. *)

(** A fresh instance on the users database. *)
Definition fresh : store t := init (users_db accepts_all).

(** The caller has called [begin_transaction]. *)
Definition in_caller_transaction : store t := snd (begin_transaction fresh).

(** There is no table [ghosts]: an update of it, or a delete from it, is
    rejected. *)
Definition ghosts_update : string := "UPDATE ghosts SET name=? WHERE id=?;".

Definition no_ghosts (query : string) : option string :=
  if String.prefix "UPDATE ghosts " query || String.prefix "DELETE FROM ghosts " query
  then Some "no such table: ghosts" else None.

Definition without_ghosts : store t := init (users_db no_ghosts).

(** The engine rejects an empty condition after [WHERE], as SQLite does. *)
Definition checks_syntax : store t :=
  init (users_db (rejecting "DELETE FROM users WHERE ;" "syntax error")).

(** The insert is rejected (a constraint fails). *)
Definition alice : kwargs := [("name", VStr "Alice"); ("age", VInt 30)].

Definition insert_alice : string := "INSERT INTO users (name, age) VALUES (?, ?);".

Definition constrained : store t :=
  init (users_db (rejecting insert_alice "UNIQUE constraint failed: users.name")).

(** The commit fails (the database is locked). *)
Definition locked : store t :=
  init (mk false false accepts_all users_answer [] (Some "database is locked")
          None (VInt 1) 1).

(** [close] has been called. *)
Definition after_close : store t := snd (close fresh).

(** The engine is inside a transaction that the flag does not know of. *)
Definition unflagged : store t := init (set_txn true (users_db accepts_all)).

(** The commit fails while the caller's transaction is open. *)
Definition locked_in_transaction : store t := snd (begin_transaction locked).

(** What a run shows: its outcome, the flag and the log it leaves. *)
Definition shown {A} (r : outcome A * store t) : outcome A * bool * list event :=
  (fst r, in_transaction (snd r), calls (snd r)).

Definition begin_ok : event := Ev (ConnExecute BEGIN) true.
Definition commit_ok : event := Ev ConnCommit true.
Definition rollback_ok : event := Ev ConnRollback true.
Definition schema_lookup : event :=
  Ev (CursorExecute "PRAGMA table_info(users);" []) true.

End Scripted.

(** ** Views of the methods used by the further properties *)

Section Views.

Context {E : Type} `{Engine E}.

(** The [isinstance] test that the loop of [create] (lines 48-56) applies
    to a value, given the declared type in upper case; any other declared
    type is not tested. *)
Definition type_ok (expected_type : string) (v : value) : bool :=
  if expected_type =? "INTEGER" then isinstance_int v
  else if expected_type =? "TEXT" then isinstance_str v
  else if expected_type =? "REAL" then isinstance_int_float v
  else if expected_type =? "BLOB" then isinstance_bytes v
  else true.

(** The column of a keyword argument is in the schema, with a text for its
    declared type, and the value passes the test for that type. *)
Definition column_ok (schema : pydict) (item : string * value) : bool :=
  match dict_get (VStr (fst item)) schema with
  | Some (VStr declared) => type_ok (upper declared) (snd item)
  | _ => false
  end.

(** The read methods, uniformly. *)
Inductive read : Type :=
| Get (table_name : string) (kw : kwargs)
| Filter (table_name : string) (kw : kwargs)
| All (table_name : string)
| Exists (table_name : string) (kw : kwargs)
| Count (table_name : string) (kw : kwargs)
| Schema (table_name : string)
| Introspect (table_name : string)
| TableExists (table_name : string).

(** The store a read leaves. *)
Definition after_read (r : read) (s : store E) : store E :=
  match r with
  | Get t kw => snd (get t kw s)
  | Filter t kw => snd (filter t kw s)
  | All t => snd (all t s)
  | Exists t kw => snd (exists_ t kw s)
  | Count t kw => snd (count t kw s)
  | Schema t => snd (get_table_schema t s)
  | Introspect t => snd (introspect_table t s)
  | TableExists t => snd (table_exists t s)
  end.

(** The statement a read passes to [self.cursor.execute] and its parameters. *)
Definition read_query (r : read) : string :=
  match r with
  | Get t kw => get_query t kw
  | Filter t kw => filter_query t kw
  | All t => all_query t
  | Exists t kw => exists_query t kw
  | Count t kw => count_query t kw
  | Schema t | Introspect t => table_info_query t
  | TableExists _ => table_exists_query
  end.

Definition read_params (r : read) : list value :=
  match r with
  | Get _ kw | Exists _ kw => values kw
  | Filter _ kw | Count _ kw => if truthy kw then values kw else []
  | All _ | Schema _ | Introspect _ => []
  | TableExists t => [VStr t]
  end.

(** [get] and [exists] refuse an empty filter set before they reach the
    engine. *)
Definition refused (r : read) : bool :=
  match r with
  | Get _ kw | Exists _ kw => negb (truthy kw)
  | _ => false
  end.

(** A caller running mutating methods one after the other, stopping at the
    first exception (the body of [test_multiple_operations_transaction]
    between its begin and its commit). *)
Definition run_each (ms : list mutation) : M E unit :=
  for_each ms (fun m => bind (run m) (fun _ => ret tt)).

(** A method keeps the flag in agreement with the log. *)
Definition keeps {A} (method : M E A) : Prop :=
  forall s, flag_agrees s -> flag_agrees (snd (method s)).

(** A method never lets a [sqlite3.Error] out. *)
Definition wraps {A} (method : M E A) : Prop :=
  forall s msg, fst (method s) <> Raise (SqliteError msg).

(** One call of a method by a program that uses the transaction controls,
    [create], the reads, and [update] and [delete] calls that return. *)
Inductive call_step : store E -> store E -> Prop :=
| step_begin s : call_step s (snd (begin_transaction s))
| step_commit s : call_step s (snd (commit_transaction s))
| step_rollback s : call_step s (snd (rollback_transaction s))
| step_create t kw s : call_step s (snd (create t kw s))
| step_read r s : call_step s (after_read r s)
| step_update t filters kw s n s' :
    update t filters kw s = (Return n, s') -> call_step s s'
| step_delete t kw s n s' :
    delete t kw s = (Return n, s') -> call_step s s'.

(** Any number of such calls, one after the other. *)
Inductive call_steps : store E -> store E -> Prop :=
| steps_none s : call_steps s s
| steps_more s s1 s2 : call_steps s s1 -> call_step s1 s2 -> call_steps s s2.

(** [delete] sees each value as its text. *)
Definition as_text (kw : kwargs) : kwargs :=
  map (fun '(col, v) => (col, VStr (py_str v))) kw.

End Views.

(** ** The type table of [create], letter by letter

    What the loop of lines 45-56 amounts to, written without [upper] and
    without the [isinstance] tests: which declared types are recognised,
    and which Python values each of them takes. *)

Definition is_upper_letter (k : ascii) : bool :=
  (65 <=? nat_of_ascii k)%nat && (nat_of_ascii k <=? 90)%nat.

Definition is_lower_letter (k : ascii) : bool :=
  (97 <=? nat_of_ascii k)%nat && (nat_of_ascii k <=? 122)%nat.

(** [c] is the letter [k], in upper or in lower case. *)
Definition same_letter (k c : ascii) : bool :=
  (c =? k)%char ||
  (is_upper_letter k && (nat_of_ascii c =? nat_of_ascii k + 32)%nat).

(** [d] is [word] in some mix of upper and lower case. *)
Fixpoint spells (word d : string) : bool :=
  match word, d with
  | EmptyString, EmptyString => true
  | String k word', String c d' => same_letter k c && spells word' d'
  | _, _ => false
  end.

Fixpoint no_lower_letter (word : string) : bool :=
  match word with
  | EmptyString => true
  | String k word' => negb (is_lower_letter k) && no_lower_letter word'
  end.

(** Every character of [d] is ASCII. *)
Fixpoint ascii_only (d : string) : bool :=
  match d with
  | EmptyString => true
  | String c d' => (nat_of_ascii c <? 128)%nat && ascii_only d'
  end.

(** Every declared type of the schema dict is written in ASCII. *)
Definition declared_in_ascii (schema : pydict) : bool :=
  forallb (fun item : value * value =>
             match snd item with
             | VStr declared => ascii_only declared
             | _ => true
             end) schema.

Inductive column_type : Type := Integer | Text | Real | Blob | Unchecked.

Definition declared_kind (declared : string) : column_type :=
  if spells "INTEGER" declared then Integer
  else if spells "TEXT" declared then Text
  else if spells "REAL" declared then Real
  else if spells "BLOB" declared then Blob
  else Unchecked.

Definition accepts (k : column_type) (v : value) : bool :=
  match k, v with
  | Integer, (VInt _ | VBool _) => true
  | Text, VStr _ => true
  | Real, (VInt _ | VBool _ | VFloat _) => true
  | Blob, VBytes _ => true
  | Unchecked, _ => true
  | _, _ => false
  end.

(** ** More stores over the scripted engine *)

Module Cases.

Import Scripted.

(** The dict that [get_table_schema] builds for the users table. *)
Definition users_dict : pydict :=
  [(VStr "id", VStr "INTEGER"); (VStr "name", VStr "TEXT");
   (VStr "age", VStr "INTEGER")].

(** A failing disk: every statement, the commit and the rollback raise. *)
Definition io_error (query : string) : option string := Some "disk I/O error".

Definition failing_disk : store Scripted.t :=
  init (mk false false io_error users_answer [] (Some "disk I/O error")
          (Some "cannot rollback") VNone 0).



(** What the tests run between a begin and a commit. *)
Definition three_mutations : list mutation :=
  [Insert "users" alice;
   Update "users" [("name", VStr "Alice")] [("age", VInt 31)];
   Delete "users" [("name", VStr "Bob")]].

Definition update_ghosts : mutation :=
  Update "ghosts" [("id", VInt 1)] [("name", VStr "x")].

(** The caller has begun a transaction on the failing disk. *)
Definition failing_disk_in_transaction : store Scripted.t :=
  snd (begin_transaction failing_disk).

(** The insert is rejected (a constraint fails) and the rollback raises. *)
Definition constrained_stuck : store Scripted.t :=
  init (mk false false
          (rejecting insert_alice "UNIQUE constraint failed: users.name")
          users_answer [] None (Some "cannot rollback") (VInt 1) 1).



End Cases.

(** * Properties *)

(** ** Text *)

Lemma append_cancel (a b c : string) : a ++ b = a ++ c -> b = c.
Proof.
  induction a as [|ch a IH]; simpl; [trivial|].
  intros [= Heq]. exact (IH Heq).
Qed.

Section Properties.

Context {E : Type} `{Engine E}.

Implicit Types (s : store E) (m : mutation) (log : list event).

Local Arguments String.append : simpl never.

Ltac store_simpl :=
  unfold logged, with_engine, set_in_transaction, of_reply, raise, ret in *;
  simpl in *; rewrite <- ?app_assoc; simpl.

(** Case analysis on the innermost test the goal is stuck on. *)
Ltac case_head :=
  match goal with
  | |- context [match ?x with _ => _ end] =>
      lazymatch x with
      | context [match _ with _ => _ end] => fail
      | _ => destruct x eqn:?
      end
  end.

Ltac run_cases := repeat (store_simpl; case_head); store_simpl.

(** ** The log only grows *)

Lemma new_calls_app s s' (added : list event) :
  calls s' = (calls s ++ added)%list -> new_calls s s' = added.
Proof.
  intros Hc. unfold new_calls. rewrite Hc.
  rewrite skipn_app, skipn_all, Nat.sub_diag. reflexivity.
Qed.

Lemma new_calls_same s s' : calls s' = calls s -> new_calls s s' = [].
Proof.
  intros Hc. apply new_calls_app. rewrite Hc, app_nil_r. reflexivity.
Qed.

(** ** Steps that leave the store alone *)

Lemma schema_dict_pure (rows : list row) :
  forall (acc : pydict) s, snd (schema_dict rows acc s) = s.
Proof.
  induction rows as [|col rest IH]; intros acc s; cbn -[nth_error].
  - reflexivity.
  - destruct (nth_error col 1); [destruct (nth_error col 2)|];
      try reflexivity.
    apply IH.
Qed.

Lemma check_column_pure (t : string) (schema : pydict) (col : string) (v : value) s :
  snd (check_column t schema col v s) = s.
Proof.
  unfold check_column.
  destruct (dict_get (VStr col) schema) as [[]|]; try reflexivity.
  repeat match goal with
         | |- context [if ?b then _ else _] => destruct b
         end; reflexivity.
Qed.

Lemma check_column_raises (t : string) (schema : pydict) (col : string) (v : value) s e :
  fst (check_column t schema col v s) = Raise e ->
  is_validation_error e = true \/ exists msg, e = AttributeError msg.
Proof.
  unfold check_column.
  destruct (dict_get (VStr col) schema) as [[]|]; simpl;
    try (intros [= <-]; eauto; fail).
  repeat match goal with
         | |- context [if ?b then _ else _] => destruct b
         end; simpl; intros [= <-] || discriminate; auto.
Qed.

Lemma for_each_check_pure (t : string) (schema : pydict) (kw : kwargs) s :
  snd (for_each kw (fun '(col, v) => check_column t schema col v) s) = s.
Proof.
  revert s. induction kw as [|[col v] kw IH]; intros s; simpl.
  - reflexivity.
  - unfold bind.
    pose proof (check_column_pure t schema col v s) as Hp.
    destruct (check_column t schema col v s) as [[[]|e] s1]; simpl in Hp; subst s1.
    + apply IH.
    + reflexivity.
Qed.

(** ** The schema lookup *)

(** The store left by [get_table_schema]: the engine after the PRAGMA query
    (and its fetch), one more logged call, the flag and handle untouched. *)
Lemma get_table_schema_frame (t : string) s :
  let s' := snd (get_table_schema t s) in
  in_transaction s' = in_transaction s /\
  connection s' = connection s /\
  exists ok, calls s' = (calls s ++ [Ev (CursorExecute (table_info_query t) []) ok])%list.
Proof.
  unfold get_table_schema, try_sqlite, bind, execute, fetchall.
  destruct (cursor_execute (table_info_query t) [] (engine s)) as [[msg|[]] e1]; simpl.
  - eauto.
  - destruct (cursor_fetchall e1) as [[msg|rows] e2]; simpl.
    + eauto.
    + match goal with
      | |- context [schema_dict rows [] ?s0] =>
          pose proof (schema_dict_pure rows [] s0) as Hp;
          destruct (schema_dict rows [] s0) as [[d|e] s2]
      end; simpl in Hp; subst s2.
      * simpl. eauto.
      * destruct e; simpl; eauto.
Qed.

(** ** Each mutating method is its checks followed by its [try] *)

Lemma update_try_attempt (t : string) (filters kw : kwargs) s :
  counted (attempt (Update t filters kw) s) (update_try t filters kw s).
Proof.
  unfold counted, update_try, attempt, handler, try_sqlite, bind, failure_prefix,
    rowcount, raise, ret.
  simpl.
  destruct (open_if_needed s) as [[b|[]] s2]; simpl; auto.
  - destruct (execute _ _ s2) as [[[]|[]] s3]; simpl; auto.
    + destruct (commit_if_opened b s3) as [[[]|[]] s4]; simpl; auto.
      destruct (connection_rollback s4) as [[[]|[]] s5]; simpl; auto.
    + destruct (connection_rollback s3) as [[[]|[]] s5]; simpl; auto.
  - destruct (connection_rollback s2) as [[[]|[]] s5]; simpl; auto.
Qed.

Lemma delete_attempt (t : string) (kw : kwargs) s :
  counted (attempt (Delete t kw) s) (delete t kw s).
Proof.
  unfold counted, delete, attempt, handler, try_sqlite, bind, failure_prefix,
    rowcount, raise, ret.
  simpl.
  destruct (open_if_needed s) as [[b|[]] s2]; simpl; auto.
  - destruct (execute _ _ s2) as [[[]|[]] s3]; simpl; auto.
    + destruct (commit_if_opened b s3) as [[[]|[]] s4]; simpl; auto.
      destruct (connection_rollback s4) as [[[]|[]] s5]; simpl; auto.
    + destruct (connection_rollback s3) as [[[]|[]] s5]; simpl; auto.
  - destruct (connection_rollback s2) as [[[]|[]] s5]; simpl; auto.
Qed.

Lemma counted_run (r : outcome value * store E) (r' : outcome Z * store E) :
  counted r r' ->
  (let (o, s') := r' in
   match o with
   | Return n => (Return (VInt n), s')
   | Raise e => (Raise e, s')
   end) = r.
Proof.
  destruct r as [o s1], r' as [[n|e] s2]; unfold counted; simpl;
    intros [-> ->]; reflexivity.
Qed.

Lemma run_eq m s : run m s = bind (checks m) (fun _ => attempt m) s.
Proof.
  destruct m as [t kw|t filters kw|t kw]; simpl.
  - reflexivity.
  - unfold update, bind.
    destruct (update_checks filters kw s) as [[[]|e] s1]; [|reflexivity].
    apply (counted_run (update_try_attempt t filters kw s1)).
  - unfold bind at 1. unfold ret at 1. unfold bind, ret.
    apply (counted_run (delete_attempt t kw s)).
Qed.

(** ** The checks touch neither the flag nor the connection handle *)

Lemma create_checks_frame (t : string) (kw : kwargs) s :
  let s' := snd (create_checks t kw s) in
  in_transaction s' = in_transaction s /\
  connection s' = connection s /\
  (s' = s \/ s' = snd (get_table_schema t s)).
Proof.
  unfold create_checks, bind.
  destruct (truthy kw); simpl; [|auto].
  pose proof (get_table_schema_frame t s) as (Hf & Hc & _).
  destruct (get_table_schema t s) as [[schema|e] s1]; simpl in *; [|auto].
  destruct (truthy schema); simpl; [|auto].
  rewrite for_each_check_pure. auto.
Qed.

Lemma checks_frame m s :
  let s' := snd (checks m s) in
  in_transaction s' = in_transaction s /\ connection s' = connection s.
Proof.
  destruct m as [t kw|t filters kw|t kw]; simpl.
  - pose proof (create_checks_frame t kw s) as (? & ? & _). auto.
  - unfold update_checks. destruct (_ || _); auto.
  - auto.
Qed.

Lemma checks_calls m s :
  exists added,
    calls (snd (checks m s)) = (calls s ++ added)%list /\
    none_issued is_begin added = true /\
    none_issued is_commit added = true /\
    none_issued is_rollback added = true.
Proof.
  destruct m as [t kw|t filters kw|t kw]; simpl.
  - pose proof (create_checks_frame t kw s) as (_ & _ & [-> | ->]).
    + exists []. rewrite app_nil_r. auto.
    + pose proof (get_table_schema_frame t s) as (_ & _ & ok & ->).
      eexists. split; [reflexivity|]. auto.
  - exists []. rewrite app_nil_r. unfold update_checks.
    destruct (_ || _); auto.
  - exists []. rewrite app_nil_r. auto.
Qed.

(** ** Opening *)

Lemma open_if_needed_flagged s :
  in_transaction s = true -> open_if_needed s = (Return false, s).
Proof.
  intros Hf. unfold open_if_needed, bind, read_in_transaction.
  rewrite Hf. reflexivity.
Qed.

Lemma open_if_needed_begins s (e : E) :
  in_transaction s = false -> connection s = true ->
  conn_execute BEGIN (engine s) = (inr tt, e) ->
  open_if_needed s =
    (Return true,
     mkStore e true true (calls s ++ [Ev (ConnExecute BEGIN) true])).
Proof.
  intros Hf Hc He.
  unfold open_if_needed, bind, read_in_transaction, begin_transaction,
    try_sqlite, bind, connection_execute, on_connection.
  rewrite Hf. simpl. rewrite Hc, He. simpl. rewrite Hc. reflexivity.
Qed.

(** When the opening returns, the flag is set; it returns [True] exactly
    when the flag was clear. *)
Lemma open_if_needed_returns s (b : bool) s2 :
  open_if_needed s = (Return b, s2) ->
  in_transaction s2 = true /\ connection s2 = connection s /\
  b = negb (in_transaction s) /\
  calls s2 = (calls s ++ if b then [Ev (ConnExecute BEGIN) true] else [])%list.
Proof.
  unfold open_if_needed, bind, read_in_transaction, begin_transaction,
    try_sqlite, bind, connection_execute, on_connection.
  destruct (in_transaction s) eqn:Hf; simpl.
  - intros [= <- <-]. rewrite app_nil_r. auto.
  - destruct (connection s) eqn:Hc; [|discriminate].
    destruct (conn_execute BEGIN (engine s)) as [[msg|[]] e]; simpl;
      [discriminate|].
    intros [= <- <-]. simpl. auto.
Qed.

(** When the opening raises, no transaction was flagged, none is, the
    exception is not [sqlite3.Error], and only the failed begin (if any) was
    issued. *)
Lemma open_if_needed_raises s (e : exn) s' :
  open_if_needed s = (Raise e, s') ->
  in_transaction s = false /\ in_transaction s' = false /\
  connection s' = connection s /\
  (forall msg, e <> SqliteError msg) /\
  (calls s' = calls s \/
   calls s' = (calls s ++ [Ev (ConnExecute BEGIN) false])%list).
Proof.
  unfold open_if_needed, bind, read_in_transaction, begin_transaction,
    try_sqlite, bind, connection_execute, on_connection.
  destruct (in_transaction s) eqn:Hf; simpl; [discriminate|].
  destruct (connection s) eqn:Hc.
  - destruct (conn_execute BEGIN (engine s)) as [[msg|[]] e1]; simpl;
      [|discriminate].
    intros [= <- <-]. simpl. repeat split; auto. discriminate.
  - intros [= <- <-]. repeat split; auto. discriminate.
Qed.

(** ** Committing *)

Lemma commit_transaction_ok s (e : E) :
  connection s = true -> conn_commit (engine s) = (inr tt, e) ->
  commit_transaction s =
    (Return tt, mkStore e true false (calls s ++ [Ev ConnCommit true])).
Proof.
  intros Hc He.
  unfold commit_transaction, try_sqlite, bind, connection_commit, on_connection.
  rewrite Hc, He. simpl. rewrite Hc. reflexivity.
Qed.

Lemma commit_transaction_fails s (msg : string) (e1 : E) :
  connection s = true -> conn_commit (engine s) = (inl msg, e1) ->
  commit_transaction s =
    let (r, e2) := conn_rollback e1 in
    let log := (calls s ++ [Ev ConnCommit false; Ev ConnRollback (replied_ok r)])%list in
    match r with
    | inr _ =>
        (Raise (PyException ("Transaction commit failed: " ++ msg)),
         mkStore e2 true false log)
    | inl msg' =>
        (Raise (SqliteError msg'), mkStore e2 true (in_transaction s) log)
    end.
Proof.
  intros Hc He.
  unfold commit_transaction, try_sqlite, bind, connection_commit,
    connection_rollback, on_connection.
  rewrite Hc, He. simpl. rewrite Hc.
  destruct (conn_rollback e1) as [[msg'|[]] e2]; store_simpl;
    rewrite ?Hc; reflexivity.
Qed.

Lemma commit_if_opened_skips s :
  in_transaction s = true -> commit_if_opened false s = (Return tt, s).
Proof.
  intros Hf. unfold commit_if_opened, bind, read_in_transaction.
  rewrite Hf. reflexivity.
Qed.

Lemma commit_if_opened_commits s :
  commit_if_opened true s = commit_transaction s.
Proof.
  unfold commit_if_opened, bind, read_in_transaction.
  rewrite orb_true_r. reflexivity.
Qed.

(** ** The handlers *)

(** A handler issues at most one call, a rollback, and always raises. *)
Lemma handler_rolls_back m (cause : string) s :
  (exists e, fst (handler m cause s) = Raise e) /\
  (calls (snd (handler m cause s)) = calls s \/
   exists ok, calls (snd (handler m cause s)) = (calls s ++ [Ev ConnRollback ok])%list).
Proof.
  destruct m as [t kw|t filters kw|t kw];
    unfold handler, rollback_transaction, try_sqlite, bind, read_in_transaction,
      connection_rollback, on_connection; simpl.
  all: run_cases; eauto.
Qed.

(** With the flag set and the connection handle present, the handler issues
    the rollback; when the rollback returns, the exception raised carries
    the cause. *)
Lemma handler_flagged m (cause : string) s :
  in_transaction s = true -> connection s = true ->
  let (r, e1) := conn_rollback (engine s) in
  calls (snd (handler m cause s)) = (calls s ++ [Ev ConnRollback (replied_ok r)])%list /\
  engine (snd (handler m cause s)) = e1 /\
  (exists e, fst (handler m cause s) = Raise e) /\
  (replied_ok r = true ->
   fst (handler m cause s) = Raise (PyException (failure_prefix m ++ cause))).
Proof.
  intros Hf Hc.
  destruct m as [t kw|t filters kw|t kw];
    unfold handler, rollback_transaction, try_sqlite, bind, read_in_transaction,
      connection_rollback, on_connection; simpl; rewrite ?Hf, ?Hc; simpl;
    rewrite ?Hc;
    destruct (conn_rollback (engine s)) as [[msg|[]] e1]; store_simpl;
    repeat split; eauto; discriminate.
Qed.

(** ** The [try] statement, phase by phase *)

Lemma attempt_open_raises m s (e : exn) s' :
  open_if_needed s = (Raise e, s') -> attempt m s = (Raise e, s').
Proof.
  intros Ho. pose proof (open_if_needed_raises _ Ho) as (_ & _ & _ & Hne & _).
  unfold attempt, try_sqlite, bind. rewrite Ho.
  destruct e; try reflexivity. destruct (Hne msg eq_refl).
Qed.

Lemma attempt_execute_fails m s (b : bool) s2 (cause : string) (e3 : E) :
  open_if_needed s = (Return b, s2) ->
  cursor_execute (statement m) (parameters m) (engine s2) = (inl cause, e3) ->
  attempt m s =
    handler m cause
      (mkStore e3 (connection s2) (in_transaction s2)
         (calls s2 ++ [Ev (CursorExecute (statement m) (parameters m)) false])).
Proof.
  intros Ho He. unfold attempt, try_sqlite, bind, execute.
  rewrite Ho, He. reflexivity.
Qed.

Lemma attempt_execute_ok m s (b : bool) s2 (e3 : E) :
  open_if_needed s = (Return b, s2) ->
  cursor_execute (statement m) (parameters m) (engine s2) = (inr tt, e3) ->
  attempt m s =
    try_sqlite
      (bind (commit_if_opened b) (fun _ s' => (Return (result m (engine s')), s')))
      (handler m)
      (mkStore e3 (connection s2) (in_transaction s2)
         (calls s2 ++ [Ev (CursorExecute (statement m) (parameters m)) true])).
Proof.
  intros Ho He. unfold attempt, try_sqlite, bind, execute.
  rewrite Ho, He. reflexivity.
Qed.

(** ** C8 *)

(** C8 (amended). [commit_transaction] issues the engine's commit.  When
    the commit returns, the method returns with [in_transaction] false.
    When the commit raises [sqlite3.Error], the method issues a rollback:
    if that rollback returns, [in_transaction] is false and the method
    raises [Exception("Transaction commit failed: <cause>")]; if the
    rollback raises [sqlite3.Error] as well, that second error leaves the
    method as it is and [in_transaction] keeps the value it had.  After
    [close] the method raises [AttributeError] before any engine call and
    the store is unchanged. *)
Theorem commit_transaction_outcomes s :
  (forall e1 : E,
     connection s = true -> conn_commit (engine s) = (inr tt, e1) ->
     commit_transaction s =
       (Return tt, mkStore e1 true false (calls s ++ [Ev ConnCommit true])))
  /\
  (forall (cause : string) (e1 e2 : E),
     connection s = true -> conn_commit (engine s) = (inl cause, e1) ->
     conn_rollback e1 = (inr tt, e2) ->
     commit_transaction s =
       (Raise (PyException ("Transaction commit failed: " ++ cause)),
        mkStore e2 true false
          (calls s ++ [Ev ConnCommit false; Ev ConnRollback true])))
  /\
  (forall (cause cause' : string) (e1 e2 : E),
     connection s = true -> conn_commit (engine s) = (inl cause, e1) ->
     conn_rollback e1 = (inl cause', e2) ->
     commit_transaction s =
       (Raise (SqliteError cause'),
        mkStore e2 true (in_transaction s)
          (calls s ++ [Ev ConnCommit false; Ev ConnRollback false])))
  /\
  (connection s = false ->
   commit_transaction s = (Raise (none_has_no "commit"), s)).
Proof.
  split; [|split; [|split]].
  - intros e1 Hc He. apply commit_transaction_ok; assumption.
  - intros cause e1 e2 Hc He Hr.
    rewrite (commit_transaction_fails s Hc He), Hr. reflexivity.
  - intros cause cause' e1 e2 Hc He Hr.
    rewrite (commit_transaction_fails s Hc He), Hr. reflexivity.
  - intros Hc.
    unfold commit_transaction, try_sqlite, bind, connection_commit, on_connection.
    rewrite Hc. reflexivity.
Qed.

(** ** C1 *)

Lemma none_issued_app (p : call -> bool) (l1 l2 : list event) :
  none_issued p (l1 ++ l2) = none_issued p l1 && none_issued p l2.
Proof. apply forallb_app. Qed.

(** C1. For each mutating operation (create, update, delete) whose checks
    pass: entered with [in_transaction] false, it issues the begin, then the
    statement, and after the statement has executed the commit, and once the
    commit returns [in_transaction] is false; entered with [in_transaction]
    true, it issues neither begin nor commit, and after the statement has
    executed it returns with [in_transaction] still true. *)
Theorem mutation_auto_transaction m s s1 :
  checks m s = (Return tt, s1) ->
  let exec := CursorExecute (statement m) (parameters m) in
  (in_transaction s = false -> connection s = true ->
   forall e2 e3 : E,
     conn_execute BEGIN (engine s1) = (inr tt, e2) ->
     cursor_execute (statement m) (parameters m) e2 = (inr tt, e3) ->
     let (r, e4) := conn_commit e3 in
     (exists rest,
        new_calls s1 (snd (run m s)) =
          Ev (ConnExecute BEGIN) true :: Ev exec true
            :: Ev ConnCommit (replied_ok r) :: rest) /\
     (replied_ok r = true ->
      run m s =
        (Return (result m e4),
         mkStore e4 true false
           (calls s1 ++ [Ev (ConnExecute BEGIN) true; Ev exec true;
                         Ev ConnCommit true]))))
  /\
  (in_transaction s = true ->
   none_issued is_begin (new_calls s (snd (run m s))) = true /\
   none_issued is_commit (new_calls s (snd (run m s))) = true /\
   forall e3 : E,
     cursor_execute (statement m) (parameters m) (engine s1) = (inr tt, e3) ->
     run m s =
       (Return (result m e3),
        mkStore e3 (connection s) true (calls s1 ++ [Ev exec true]))).
Proof.
  intros Hck exec.
  pose proof (checks_frame m s) as [Hf1 Hc1].
  pose proof (checks_calls m s) as (added & Hadd & Hnb & Hnc & _).
  rewrite Hck in Hf1, Hc1, Hadd. simpl in Hf1, Hc1, Hadd.
  assert (Hrun : run m s = attempt m s1)
    by (rewrite run_eq; unfold bind; rewrite Hck; reflexivity).
  rewrite !Hrun. clear Hrun.
  split.
  - intros Hf Hc e2 e3 Hb He.
    assert (Ho := open_if_needed_begins s1 (eq_trans Hf1 Hf) (eq_trans Hc1 Hc) Hb).
    rewrite (attempt_execute_ok m s1 Ho He). simpl.
    unfold try_sqlite, bind. rewrite commit_if_opened_commits.
    destruct (conn_commit e3) as [[cause|[]] e4] eqn:Hcm.
    + split; [|discriminate].
      match goal with
      | |- context [commit_transaction ?s0] =>
          rewrite (commit_transaction_fails s0 eq_refl Hcm)
      end. simpl.
      destruct (conn_rollback e4) as [[msg'|[]] e5]; simpl.
      * match goal with
        | |- context [handler m msg' ?s0] =>
            destruct (handler_rolls_back m msg' s0) as (_ & [Hh | (ok & Hh)])
        end; simpl in Hh; eexists; apply new_calls_app; rewrite Hh;
          rewrite <- ?app_assoc; simpl; reflexivity.
      * exists [Ev ConnRollback true]. apply new_calls_app. simpl.
        rewrite <- !app_assoc. reflexivity.
    + match goal with
      | |- context [commit_transaction ?s0] =>
          rewrite (commit_transaction_ok s0 eq_refl Hcm)
      end. simpl.
      split.
      * exists []. apply new_calls_app. simpl. rewrite <- !app_assoc. reflexivity.
      * intros _. rewrite <- ?app_assoc. reflexivity.
  - intros Hf.
    assert (Hf2 : in_transaction s1 = true) by congruence.
    assert (Ho := open_if_needed_flagged s1 Hf2).
    destruct (cursor_execute (statement m) (parameters m) (engine s1))
      as [[cause|[]] e3] eqn:He.
    + rewrite (attempt_execute_fails m s1 Ho He).
      match goal with
      | |- context [handler m cause ?s0] =>
          destruct (handler_rolls_back m cause s0) as (_ & [Hh | (ok & Hh)])
      end; unfold new_calls; rewrite Hh; simpl; rewrite Hadd, <- ?app_assoc;
        rewrite skipn_app, skipn_all, Nat.sub_diag; simpl;
        rewrite !none_issued_app, Hnb, Hnc;
        repeat split; try reflexivity; discriminate.
    + rewrite (attempt_execute_ok m s1 Ho He).
      unfold try_sqlite, bind. rewrite commit_if_opened_skips by exact Hf2.
      simpl. rewrite Hf2, Hc1.
      repeat split.
      1, 2: unfold new_calls; simpl; rewrite Hadd, <- ?app_assoc;
        rewrite skipn_app, skipn_all, Nat.sub_diag; simpl;
        rewrite !none_issued_app, ?Hnb, ?Hnc; reflexivity.
      intros e3' [= <-]. reflexivity.
Qed.

(** ** C3 *)

(** C3 (amended). For each mutating operation whose checks pass: if the
    statement's execution raises [sqlite3.Error] (a transaction is then
    flagged open, by the caller or by the operation's own begin), the
    operation issues a rollback right after the failed statement, and
    - when the rollback returns, the operation raises
      [Exception("<Operation> failed: <cause>")], carrying the cause;
    - when the rollback raises [sqlite3.Error] too, the cause is lost:
      [create] raises [Exception("Transaction rollback failed: <rollback's
      error>")], [update] and [delete] let the rollback's error out;
    - after [close], no rollback reaches the engine: the operation raises
      [AttributeError].
    If instead the operation fails while opening its transaction (the begin
    raises, no transaction was or is flagged), it raises that error without
    issuing any rollback. *)
Theorem mutation_failure_outcomes m s s1 :
  checks m s = (Return tt, s1) ->
  let exec := CursorExecute (statement m) (parameters m) in
  (forall (b : bool) s2 (cause : string) (e3 : E),
     open_if_needed s1 = (Return b, s2) ->
     cursor_execute (statement m) (parameters m) (engine s2) = (inl cause, e3) ->
     let failed := (calls s2 ++ [Ev exec false])%list in
     in_transaction s2 = true /\
     (forall e4 : E,
        connection s = true -> conn_rollback e3 = (inr tt, e4) ->
        run m s =
          (Raise (PyException (failure_prefix m ++ cause)),
           mkStore e4 true (match m with Insert _ _ => false | _ => true end)
             (failed ++ [Ev ConnRollback true]))) /\
     (forall (cause' : string) (e4 : E),
        connection s = true -> conn_rollback e3 = (inl cause', e4) ->
        run m s =
          (Raise (match m with
                  | Insert _ _ =>
                      PyException ("Transaction rollback failed: " ++ cause')
                  | _ => SqliteError cause'
                  end),
           mkStore e4 true true (failed ++ [Ev ConnRollback false]))) /\
     (connection s = false ->
      run m s = (Raise (none_has_no "rollback"), mkStore e3 false true failed)))
  /\
  (forall (e : exn) s',
     open_if_needed s1 = (Raise e, s') ->
     run m s = (Raise e, s') /\
     in_transaction s = false /\ in_transaction s' = false /\
     none_issued is_rollback (new_calls s s') = true).
Proof.
  intros Hck exec.
  pose proof (checks_frame m s) as [Hf1 Hc1].
  pose proof (checks_calls m s) as (added & Hadd & _ & _ & Hnr).
  rewrite Hck in Hf1, Hc1, Hadd. simpl in Hf1, Hc1, Hadd.
  assert (Hrun : run m s = attempt m s1)
    by (rewrite run_eq; unfold bind; rewrite Hck; reflexivity).
  rewrite !Hrun. clear Hrun.
  split.
  - intros b s2 cause e3 Ho He failed. subst failed exec.
    pose proof (open_if_needed_returns _ Ho) as (Hf2 & Hc2 & _ & _).
    rewrite (attempt_execute_fails m s1 Ho He).
    assert (Hcs : connection s2 = connection s) by congruence.
    split; [exact Hf2|].
    split; [|split].
    + intros e4 Hc Hr.
      destruct m as [t kw|t filters kw|t kw];
        unfold handler, rollback_transaction, try_sqlite, bind,
          read_in_transaction, connection_rollback, on_connection; simpl;
        rewrite ?Hf2, ?Hcs, ?Hc; simpl; rewrite ?Hr; store_simpl;
        rewrite ?Hcs, ?Hc, ?Hf2, <- ?app_assoc; reflexivity.
    + intros cause' e4 Hc Hr.
      destruct m as [t kw|t filters kw|t kw];
        unfold handler, rollback_transaction, try_sqlite, bind,
          read_in_transaction, connection_rollback, on_connection; simpl;
        rewrite ?Hf2, ?Hcs, ?Hc; simpl; rewrite ?Hr; store_simpl;
        rewrite ?Hcs, ?Hc, ?Hf2, <- ?app_assoc; reflexivity.
    + intros Hc.
      destruct m as [t kw|t filters kw|t kw];
        unfold handler, rollback_transaction, try_sqlite, bind,
          read_in_transaction, connection_rollback, on_connection; simpl;
        rewrite ?Hf2, ?Hcs, ?Hc; simpl;
        rewrite ?Hcs, ?Hc, ?Hf2; reflexivity.
  - intros e s' Ho.
    pose proof (open_if_needed_raises _ Ho) as (Hf & Hf' & _ & _ & Hcalls).
    rewrite (attempt_open_raises m s1 Ho).
    repeat split; try congruence.
    unfold new_calls.
    destruct Hcalls as [-> | ->]; rewrite Hadd, <- ?app_assoc;
      rewrite ?skipn_app, skipn_all, ?Nat.sub_diag; simpl;
      rewrite ?none_issued_app, Hnr; reflexivity.
Qed.

(** ** Reads as functions of the engine's answer *)

Lemma get_answer (t : string) (kw : kwargs) s :
  truthy kw = true ->
  fst (get t kw s) =
    match select_one (get_query t kw) (values kw) (engine s) with
    | inl _ => Return None
    | inr r => Return r
    end.
Proof.
  intros Hkw. unfold get, select_one, try_sqlite, bind, execute, fetchone.
  rewrite Hkw. simpl.
  destruct (cursor_execute _ _ (engine s)) as [[msg|[]] e1]; simpl; [reflexivity|].
  destruct (cursor_fetchone e1) as [[msg|r] e2]; reflexivity.
Qed.

Lemma exists_answer (t : string) (kw : kwargs) s :
  truthy kw = true ->
  fst (exists_ t kw s) =
    match select_one (exists_query t kw) (values kw) (engine s) with
    | inl _ => Return false
    | inr r => Return (is_not_none r)
    end.
Proof.
  intros Hkw. unfold exists_, select_one, try_sqlite, bind, execute, fetchone.
  rewrite Hkw. simpl.
  destruct (cursor_execute _ _ (engine s)) as [[msg|[]] e1]; simpl; [reflexivity|].
  destruct (cursor_fetchone e1) as [[msg|r] e2]; reflexivity.
Qed.

Lemma filter_answer (t : string) (kw : kwargs) s :
  fst (filter t kw s) =
    match select_all (filter_query t kw) (if truthy kw then values kw else [])
            (engine s) with
    | inl _ => Return []
    | inr rows => Return rows
    end.
Proof.
  unfold filter, select_all, try_sqlite, bind, execute, fetchall.
  destruct (truthy kw); simpl;
    (destruct (cursor_execute _ _ (engine s)) as [[msg|[]] e1]; simpl;
     [reflexivity|]; destruct (cursor_fetchall e1) as [[msg|r] e2]; reflexivity).
Qed.

Lemma all_answer (t : string) s :
  fst (all t s) =
    match select_all (all_query t) [] (engine s) with
    | inl _ => Return []
    | inr rows => Return rows
    end.
Proof.
  unfold all, select_all, try_sqlite, bind, execute, fetchall.
  destruct (cursor_execute _ _ (engine s)) as [[msg|[]] e1]; simpl;
    [reflexivity|]; destruct (cursor_fetchall e1) as [[msg|r] e2]; reflexivity.
Qed.

Lemma count_answer (t : string) (kw : kwargs) s :
  fst (count t kw s) =
    match select_one (count_query t kw) (if truthy kw then values kw else [])
            (engine s) with
    | inl _ => Return (VInt 0)
    | inr None => Raise (TypeError "'NoneType' object is not subscriptable")
    | inr (Some []) => Raise (IndexError "tuple index out of range")
    | inr (Some (v :: _)) => Return v
    end.
Proof.
  unfold count, select_one, try_sqlite, bind, execute, fetchone.
  destruct (truthy kw); simpl;
    (destruct (cursor_execute _ _ (engine s)) as [[msg|[]] e1]; simpl;
     [reflexivity|];
     destruct (cursor_fetchone e1) as [[msg|[[|v r]|]] e2]; reflexivity).
Qed.

Lemma get_table_schema_answer (t : string) s :
  fst (get_table_schema t s) =
    match select_all (table_info_query t) [] (engine s) with
    | inl _ => Return []
    | inr rows => fst (schema_dict rows [] s)
    end.
Proof.
  unfold get_table_schema, select_all, try_sqlite, bind, execute, fetchall.
  destruct (cursor_execute _ _ (engine s)) as [[msg|[]] e1]; simpl;
    [reflexivity|].
  destruct (cursor_fetchall e1) as [[msg|rows] e2]; simpl; [reflexivity|].
  assert (Hs : forall (acc : pydict) s1 s2,
             fst (schema_dict rows acc s1) = fst (schema_dict rows acc s2)
             /\ forall msg, fst (schema_dict rows acc s1) <> Raise (SqliteError msg)).
  { clear. induction rows as [|col rest IH]; intros acc s1 s2; cbn -[nth_error].
    - split; [reflexivity|discriminate].
    - destruct (nth_error col 1); [destruct (nth_error col 2)|]; simpl;
        try (split; [reflexivity|discriminate]).
      apply IH. }
  match goal with
  | |- context [schema_dict rows [] ?s0] =>
      destruct (Hs [] s0 s) as [Heq Hne];
      destruct (schema_dict rows [] s0) as [[d|e] s3]
  end; simpl in *; rewrite <- Heq; [reflexivity|].
  destruct e; try reflexivity. destruct (Hne msg eq_refl).
Qed.

Lemma schema_dict_raises (rows : list row) :
  forall (acc : pydict) s (e : exn),
    fst (schema_dict rows acc s) = Raise e ->
    e = IndexError "tuple index out of range".
Proof.
  induction rows as [|col rest IH]; intros acc s e; cbn -[nth_error].
  - discriminate.
  - destruct (nth_error col 1); [destruct (nth_error col 2)|]; simpl;
      try (intros [= <-]; reflexivity).
    apply IH.
Qed.

(** ** C9 *)




(** ** C10 *)


(** ** C6 *)

(** The [try] statement never raises [ValueError] or [TypeError]. *)
Lemma attempt_raises m s (e : exn) :
  fst (attempt m s) = Raise e -> is_validation_error e = false.
Proof.
  destruct (open_if_needed s) as [[b|e0] s2] eqn:Ho.
  - destruct (cursor_execute (statement m) (parameters m) (engine s2))
      as [[cause|[]] e3] eqn:He.
    + rewrite (attempt_execute_fails m s Ho He).
      destruct m; unfold handler, rollback_transaction, try_sqlite, bind,
        read_in_transaction, connection_rollback, on_connection;
        run_cases; intros [= <-]; reflexivity.
    + rewrite (attempt_execute_ok m s Ho He).
      destruct m; unfold handler, commit_if_opened, commit_transaction,
        rollback_transaction, try_sqlite, bind, read_in_transaction,
        connection_commit, connection_rollback, on_connection;
        run_cases; intros [= <-] || discriminate; reflexivity.
  - rewrite (attempt_open_raises m s Ho). simpl. intros [= <-].
    revert Ho.
    unfold open_if_needed, begin_transaction, try_sqlite, bind,
      read_in_transaction, connection_execute, on_connection.
    run_cases; intros [= <- <-] || discriminate; reflexivity.
Qed.

Lemma create_validation_error (t : string) (kw : kwargs) s (e : exn) s' :
  create t kw s = (Raise e, s') -> is_validation_error e = true ->
  create_checks t kw s = (Raise e, s').
Proof.
  unfold create, bind.
  destruct (create_checks t kw s) as [[[]|e0] s1]; [|congruence].
  intros Hrun Hv.
  pose proof (attempt_raises (Insert t kw) s1) as Ha.
  change (attempt (Insert t kw) s1) with (create_try t kw s1) in Ha.
  rewrite Hrun in Ha. rewrite (Ha e eq_refl) in Hv. discriminate.
Qed.

Lemma update_validation_error (t : string) (filters kw : kwargs) s (e : exn) s' :
  update t filters kw s = (Raise e, s') -> is_validation_error e = true ->
  update_checks filters kw s = (Raise e, s').
Proof.
  unfold update, bind.
  destruct (update_checks filters kw s) as [[[]|e0] s1]; [|congruence].
  intros Hrun Hv.
  pose proof (attempt_raises (Update t filters kw) s1) as Ha.
  destruct (update_try_attempt t filters kw s1) as [_ Hc].
  rewrite Hrun in Hc. simpl in Hc.
  rewrite (Ha e Hc) in Hv. discriminate.
Qed.

(** C6. When [create] or [update] raises a validation error ([ValueError]
    or [TypeError]: no data, no filters, table not found, unknown column,
    type mismatch), the error comes from the checks made before the [try]:
    no begin and no insert or update statement has been issued,
    [in_transaction] is unchanged, and the engine is as the schema lookup of
    [create] left it (untouched for [update] and for [create] without
    data). *)
Theorem validation_errors_precede_transaction
  (t : string) (filters kw : kwargs) s :
  (forall (e : exn) s',
     create t kw s = (Raise e, s') -> is_validation_error e = true ->
     create_checks t kw s = (Raise e, s') /\
     in_transaction s' = in_transaction s /\
     (s' = s \/ s' = snd (get_table_schema t s)) /\
     (new_calls s s' = [] \/
      exists ok, new_calls s s' = [Ev (CursorExecute (table_info_query t) []) ok]))
  /\
  (forall (e : exn) s',
     update t filters kw s = (Raise e, s') -> is_validation_error e = true ->
     update_checks filters kw s = (Raise e, s') /\ s' = s)
  /\
  (truthy kw = false ->
   create t kw s = (Raise (ValueError "No data provided for insertion"), s) /\
   update t filters kw s =
     (Raise (ValueError "Both filters and update data must be provided"), s))
  /\
  (truthy filters = false ->
   update t filters kw s =
     (Raise (ValueError "Both filters and update data must be provided"), s)).
Proof.
  split; [|split; [|split]].
  - intros e s' Hrun Hv.
    pose proof (create_validation_error _ _ _ Hrun Hv) as Hck.
    pose proof (create_checks_frame t kw s) as (Hf & _ & Hs).
    rewrite Hck in Hf, Hs. simpl in Hf, Hs.
    repeat split; auto.
    destruct Hs as [-> | Hs].
    + left. apply new_calls_same. reflexivity.
    + right. pose proof (get_table_schema_frame t s) as (_ & _ & ok & Hc).
      exists ok. apply new_calls_app. rewrite Hs. exact Hc.
  - intros e s' Hrun Hv.
    pose proof (update_validation_error _ _ _ _ Hrun Hv) as Hck.
    split; [exact Hck|].
    revert Hck. unfold update_checks.
    destruct (_ || _); intros [= ]; congruence.
  - intros Hkw. unfold create, create_checks, update, update_checks, bind.
    rewrite Hkw, orb_true_r. split; reflexivity.
  - intros Hfi. unfold update, update_checks, bind.
    rewrite Hfi. reflexivity.
Qed.

(** ** Inside the caller's transaction *)

(** Entered inside the caller's transaction, a statement that executes is
    all the method does. *)
Lemma attempt_in_caller_transaction m s (e3 : E) :
  in_transaction s = true ->
  cursor_execute (statement m) (parameters m) (engine s) = (inr tt, e3) ->
  attempt m s =
    (Return (result m e3),
     mkStore e3 (connection s) true
       (calls s ++ [Ev (CursorExecute (statement m) (parameters m)) true])).
Proof.
  intros Hf He.
  rewrite (attempt_execute_ok m s (open_if_needed_flagged s Hf) He).
  unfold try_sqlite, bind. rewrite commit_if_opened_skips by exact Hf.
  simpl. rewrite Hf. reflexivity.
Qed.

(** ** C7 *)

Lemma close_returns s0 s :
  connection s0 = true -> close s0 = (Return tt, s) ->
  connection s = false /\ in_transaction s = in_transaction s0 /\
  exists e, conn_close (engine s0) = (inr tt, e) /\ engine s = e /\
            calls s = (calls s0 ++ [Ev ConnClose true])%list.
Proof.
  intros Hc. unfold close, try_sqlite, bind, connection_close, on_connection.
  rewrite Hc. simpl. rewrite ?Hc.
  destruct (conn_close (engine s0)) as [[msg|[]] e]; simpl; [discriminate|].
  intros [= <-]. simpl. repeat split; eauto.
Qed.

Lemma select_one_refused (query : string) (params : list value) (e : E) :
  replied_ok (fst (cursor_execute query params e)) = false ->
  exists cause, select_one query params e = inl cause.
Proof.
  unfold select_one.
  destruct (cursor_execute query params e) as [[msg|[]] e1]; simpl;
    [eauto|discriminate].
Qed.

Lemma select_all_refused (query : string) (params : list value) (e : E) :
  replied_ok (fst (cursor_execute query params e)) = false ->
  exists cause, select_all query params e = inl cause.
Proof.
  unfold select_all.
  destruct (cursor_execute query params e) as [[msg|[]] e1]; simpl;
    [eauto|discriminate].
Qed.

(** C7 (amended). After [close] has returned, the connection attribute is
    [None] and nothing checks for it.  The reads [get], [exists] (with
    filters), [filter] and [all] return normally; when the engine refuses
    every statement on the closed connection they return [None], [False] and
    [[]], [count] returns [0] and [get_table_schema] returns [{}].  The
    operations that call through the connection attribute raise
    [AttributeError] on [None]: [begin_transaction], [commit_transaction],
    and [update] and [delete] entered with no transaction flagged.  A second
    [close] returns without doing anything. *)
Theorem after_close_no_closed_error s0 s :
  connection s0 = true ->
  close s0 = (Return tt, s) ->
  connection s = false /\
  (forall (t : string) (kw : kwargs),
     truthy kw = true ->
     (exists r, fst (get t kw s) = Return r) /\
     (exists b, fst (exists_ t kw s) = Return b) /\
     (exists rows, fst (filter t kw s) = Return rows) /\
     (exists rows, fst (all t s) = Return rows)) /\
  ((forall query params,
      replied_ok (fst (cursor_execute query params (engine s))) = false) ->
   forall (t : string) (kw : kwargs),
     truthy kw = true ->
     fst (get t kw s) = Return None /\
     fst (exists_ t kw s) = Return false /\
     fst (filter t kw s) = Return [] /\
     fst (all t s) = Return [] /\
     fst (count t kw s) = Return (VInt 0) /\
     fst (get_table_schema t s) = Return []) /\
  begin_transaction s = (Raise (none_has_no "execute"), s) /\
  commit_transaction s = (Raise (none_has_no "commit"), s) /\
  (in_transaction s = false ->
   forall (t : string) (filters kw : kwargs),
     truthy filters = true -> truthy kw = true ->
     update t filters kw s = (Raise (none_has_no "execute"), s) /\
     delete t kw s = (Raise (none_has_no "execute"), s)) /\
  close s = (Return tt, s).
Proof.
  intros Hc0 Hclose.
  destruct (close_returns s0 Hc0 Hclose) as (Hc & _).
  split; [exact Hc|]. split; [|split; [|split; [|split; [|split]]]].
  - intros t kw Hkw.
    rewrite get_answer, exists_answer, filter_answer, all_answer by assumption.
    repeat split.
    + destruct (select_one (get_query t kw) _ _); eauto.
    + destruct (select_one (exists_query t kw) _ _); eauto.
    + destruct (select_all (filter_query t kw) _ _); eauto.
    + destruct (select_all (all_query t) _ _); eauto.
  - intros Href t kw Hkw.
    rewrite get_answer, exists_answer, filter_answer, all_answer, count_answer,
      get_table_schema_answer by assumption.
    rewrite Hkw.
    destruct (select_one_refused _ _ _ (Href (get_query t kw) (values kw))) as [c1 ->].
    destruct (select_one_refused _ _ _ (Href (exists_query t kw) (values kw))) as [c2 ->].
    destruct (select_all_refused _ _ _ (Href (filter_query t kw) (values kw))) as [c3 ->].
    destruct (select_all_refused _ _ _ (Href (all_query t) [])) as [c4 ->].
    destruct (select_one_refused _ _ _ (Href (count_query t kw) (values kw))) as [c5 ->].
    destruct (select_all_refused _ _ _ (Href (table_info_query t) [])) as [c6 ->].
    repeat split.
  - unfold begin_transaction, try_sqlite, bind, connection_execute, on_connection.
    rewrite Hc. reflexivity.
  - unfold commit_transaction, try_sqlite, bind, connection_commit, on_connection.
    rewrite Hc. reflexivity.
  - intros Hf t filters kw Hfi Hkw.
    unfold update, update_checks, update_try, delete, open_if_needed,
      begin_transaction, try_sqlite, bind, read_in_transaction,
      connection_execute, on_connection.
    rewrite Hfi, Hkw. simpl. rewrite Hf. simpl. rewrite Hc. split; reflexivity.
  - unfold close, try_sqlite. rewrite Hc. reflexivity.
Qed.

(** ** C2: where the flag follows the log, and where it does not *)

Lemma txn_open_app (log added : list event) :
  txn_open (log ++ added) = fold_left txn_step added (txn_open log).
Proof. unfold txn_open. apply fold_left_app. Qed.

(** The three transaction controls keep the flag in agreement with the log
    on every path. *)
Lemma controls_keep_flag s :
  flag_agrees s ->
  flag_agrees (snd (begin_transaction s)) /\
  flag_agrees (snd (commit_transaction s)) /\
  flag_agrees (snd (rollback_transaction s)).
Proof.
  unfold flag_agrees. intros Hinv.
  unfold begin_transaction, commit_transaction, rollback_transaction,
    try_sqlite, bind, read_in_transaction, connection_execute,
    connection_commit, connection_rollback, on_connection.
  repeat split; run_cases; rewrite ?txn_open_app; simpl; congruence.
Qed.

(** The handler of [update] and of [delete] does not: after a statement
    that fails inside the operation's own transaction and a rollback that
    returns, the flag is set although the log has the transaction closed. *)
Lemma failed_update_or_delete_breaks_flag m s (e2 e3 e4 : E) (cause : string) :
  (forall t kw, m <> Insert t kw) ->
  checks m s = (Return tt, s) ->
  in_transaction s = false -> connection s = true ->
  conn_execute BEGIN (engine s) = (inr tt, e2) ->
  cursor_execute (statement m) (parameters m) e2 = (inl cause, e3) ->
  conn_rollback e3 = (inr tt, e4) ->
  in_transaction (snd (run m s)) = true /\
  txn_open (calls (snd (run m s))) = false.
Proof.
  intros Hm Hck Hf Hc Hb He Hr.
  assert (Hrun : run m s = attempt m s)
    by (rewrite run_eq; unfold bind; rewrite Hck; reflexivity).
  rewrite Hrun.
  rewrite (attempt_execute_fails m s (open_if_needed_begins s Hf Hc Hb) He).
  destruct m as [t kw|t filters kw|t kw]; [destruct (Hm t kw eq_refl)| |];
    unfold handler, bind, connection_rollback, on_connection; simpl;
    rewrite Hr; simpl; rewrite <- ?app_assoc, txn_open_app; simpl; auto.
Qed.

End Properties.

(** * Concrete runs on the scripted engine *)

Section Runs.

Import Scripted.

Lemma mutation_auto_transaction_witness :
  (* no transaction on entry: begin, statement, commit *)
  shown (run (Insert "users" alice) fresh) =
    (Return (VInt 1), false,
     [schema_lookup; begin_ok;
      Ev (CursorExecute insert_alice (values alice)) true; commit_ok])
  /\
  (* inside the caller's transaction: the statement only *)
  shown (run (Delete "users" [("name", VStr "Alice")]) in_caller_transaction) =
    (Return (VInt 1), true,
     [begin_ok;
      Ev (CursorExecute "DELETE FROM users WHERE name='Alice';" []) true]).
Proof.
  split.
  - pose proof (@mutation_auto_transaction _ _ (Insert "users" alice) fresh
                  (snd (checks (Insert "users" alice) fresh)) eq_refl) as [HA _].
    specialize (HA eq_refl eq_refl _ _ eq_refl eq_refl).
    destruct HA as [_ HA]. rewrite (HA eq_refl). reflexivity.
  - pose proof (@mutation_auto_transaction _ _
                  (Delete "users" [("name", VStr "Alice")]) in_caller_transaction
                  in_caller_transaction eq_refl) as [_ HB].
    destruct (HB eq_refl) as (_ & _ & HB'). rewrite (HB' _ eq_refl). reflexivity.
Defined.

(** C3, as stated, fails: on a store whose transaction is flagged open,
    the statement's execution fails, a rollback is issued, and what the
    operation raises does not carry the cause.  [update] lets the
    rollback's own [sqlite3.Error] out; [create] reports the rollback. *)
Lemma mutation_failure_counterexample :
  shown (run Cases.update_ghosts Cases.failing_disk_in_transaction) =
    (Raise (SqliteError "cannot rollback"), true,
     [begin_ok; Ev (CursorExecute ghosts_update [VStr "x"; VInt 1]) false;
      Ev ConnRollback false]) /\
  shown (run (Insert "users" alice) Cases.constrained_stuck) =
    (Raise (PyException "Transaction rollback failed: cannot rollback"), true,
     [schema_lookup; begin_ok;
      Ev (CursorExecute insert_alice (values alice)) false;
      Ev ConnRollback false]).
Proof. split; reflexivity. Qed.

Lemma mutation_failure_outcomes_witness :
  (* the insert is rejected inside the operation's own transaction *)
  shown (run (Insert "users" alice) constrained) =
    (Raise (PyException "Insertion failed: UNIQUE constraint failed: users.name"),
     false,
     [schema_lookup; begin_ok;
      Ev (CursorExecute insert_alice (values alice)) false; rollback_ok])
  /\
  (* the update is rejected inside the caller's transaction *)
  shown (run Cases.update_ghosts (snd (begin_transaction without_ghosts))) =
    (Raise (PyException "Update failed: no such table: ghosts"), true,
     [begin_ok; Ev (CursorExecute ghosts_update [VStr "x"; VInt 1]) false;
      rollback_ok])
  /\
  (* the rollback raises as well *)
  shown (run (Insert "users" alice) Cases.constrained_stuck) =
    (Raise (PyException "Transaction rollback failed: cannot rollback"), true,
     [schema_lookup; begin_ok;
      Ev (CursorExecute insert_alice (values alice)) false;
      Ev ConnRollback false])
  /\
  (* the begin is refused: nothing is rolled back *)
  shown (run (Delete "users" [("name", VStr "Alice")]) unflagged) =
    (Raise (PyException
              "Transaction start failed: cannot start a transaction within a transaction"),
     false,
     [Ev (ConnExecute BEGIN) false]).
Proof.
  split; [|split; [|split]].
  - pose proof (@mutation_failure_outcomes _ _ (Insert "users" alice) constrained
                  (snd (checks (Insert "users" alice) constrained)) eq_refl)
      as [HA _].
    specialize (HA true _ _ _ eq_refl eq_refl).
    destruct HA as (_ & Hok & _).
    rewrite (Hok _ eq_refl eq_refl). reflexivity.
  - pose proof (@mutation_failure_outcomes _ _ Cases.update_ghosts
                  (snd (begin_transaction without_ghosts))
                  (snd (begin_transaction without_ghosts)) eq_refl)
      as [HA _].
    specialize (HA false _ _ _ eq_refl eq_refl).
    destruct HA as (_ & Hok & _).
    rewrite (Hok _ eq_refl eq_refl). reflexivity.
  - pose proof (@mutation_failure_outcomes _ _ (Insert "users" alice)
                  Cases.constrained_stuck
                  (snd (checks (Insert "users" alice) Cases.constrained_stuck))
                  eq_refl)
      as [HA _].
    specialize (HA true _ _ _ eq_refl eq_refl).
    destruct HA as (_ & _ & Hstuck & _).
    rewrite (Hstuck _ _ eq_refl eq_refl). reflexivity.
  - pose proof (@mutation_failure_outcomes _ _
                  (Delete "users" [("name", VStr "Alice")]) unflagged
                  unflagged eq_refl) as [_ HB].
    destruct (HB _ _ eq_refl) as (Hrun & _ & _ & _).
    rewrite Hrun. reflexivity.
Defined.

(** ** C5 *)

(** C5. [delete] with no filters, evaluated.  For every table the text
    built is [DELETE FROM <table> WHERE ;], never the unconstrained
    [DELETE FROM <table>;], while [filter] and [count] leave the [WHERE]
    out for an empty filter set.  On an engine that rejects the empty
    condition, as SQLite does, [delete('users')] begins a transaction, has
    the statement rejected, rolls back and raises
    [Exception("Deletion failed: syntax error")]: no row is deleted and no
    count is returned. *)
Theorem delete_without_filters_is_malformed :
  (forall t : string,
     delete_query t [] = "DELETE FROM " ++ t ++ " WHERE ;" /\
     delete_query t [] <> "DELETE FROM " ++ t ++ ";" /\
     filter_query t [] = "SELECT * FROM " ++ t ++ ";" /\
     count_query t [] = "SELECT COUNT(*) FROM " ++ t ++ ";") /\
  shown (delete "users" [] checks_syntax) =
    (Raise (PyException "Deletion failed: syntax error"), true,
     [begin_ok; Ev (CursorExecute "DELETE FROM users WHERE ;" []) false;
      rollback_ok]) /\
  shown (filter "users" [] checks_syntax) =
    (Return [[VInt 1; VStr "Alice"; VInt 30]], false,
     [Ev (CursorExecute "SELECT * FROM users;" []) true]) /\
  shown (count "users" [] checks_syntax) =
    (Return (VInt 1), false,
     [Ev (CursorExecute "SELECT COUNT(*) FROM users;" []) true]).
Proof.
  split; [|repeat split].
  intros t. repeat split.
  unfold delete_query. simpl. intros [= Heq].
  apply append_cancel in Heq. discriminate.
Qed.

Lemma validation_errors_precede_transaction_witness :
  let wrong := [("age", VStr "30")] in
  let s' := snd (create "users" wrong fresh) in
  fst (create "users" wrong fresh) =
    Raise (TypeError "Value for column 'age' should be of type INTEGER") /\
  in_transaction s' = in_transaction fresh /\
  s' = snd (get_table_schema "users" fresh) /\
  new_calls fresh s' = [schema_lookup] /\
  update "users" [] alice fresh =
    (Raise (ValueError "Both filters and update data must be provided"), fresh).
Proof.
  intros wrong s'.
  destruct (validation_errors_precede_transaction "users" [] wrong fresh)
    as (Hc & _ & _ & Hu).
  destruct (Hc (TypeError "Value for column 'age' should be of type INTEGER") s'
              eq_refl eq_refl) as (_ & Hf & _ & _).
  split; [reflexivity|]. split; [exact Hf|]. split; [reflexivity|].
  split; [reflexivity|]. exact (Hu eq_refl).
Defined.

(** C7, as stated, fails: after [close], [get] returns [None] and raises
    nothing, and [update] stops on [AttributeError], not on an error that
    says the connection is closed. *)
Lemma after_close_counterexample :
  connection after_close = false /\
  shown (get "users" [("name", VStr "Alice")] after_close) =
    (Return None, false,
     [Ev ConnClose true;
      Ev (CursorExecute "SELECT * FROM users WHERE name=? LIMIT 1;" [VStr "Alice"])
        false]) /\
  fst (update "users" [("id", VInt 1)] [("name", VStr "x")] after_close) =
    Raise (AttributeError "'NoneType' object has no attribute 'execute'").
Proof. repeat split. Qed.

Lemma after_close_no_closed_error_witness :
  let kw := [("name", VStr "Alice")] in
  connection fresh = true /\
  close fresh = (Return tt, after_close) /\
  fst (get "users" kw after_close) = Return None /\
  fst (exists_ "users" kw after_close) = Return false /\
  fst (filter "users" kw after_close) = Return [] /\
  fst (all "users" after_close) = Return [] /\
  fst (count "users" kw after_close) = Return (VInt 0) /\
  fst (get_table_schema "users" after_close) = Return [] /\
  fst (begin_transaction after_close) = Raise (none_has_no "execute") /\
  fst (update "users" [("id", VInt 1)] kw after_close) =
    Raise (none_has_no "execute").
Proof.
  intros kw.
  assert (Hclose : close fresh = (Return tt, after_close)) by reflexivity.
  destruct (@after_close_no_closed_error _ _ fresh after_close eq_refl Hclose)
    as (_ & _ & Hreads & Hbegin & _ & Hmut & _).
  destruct (Hreads (fun _ _ => eq_refl) "users" kw eq_refl)
    as (Hg & He & Hf & Ha & Hc & Hs).
  destruct (Hmut eq_refl "users" [("id", VInt 1)] kw eq_refl eq_refl) as [Hu _].
  split; [reflexivity|]. split; [exact Hclose|].
  repeat (split; [assumption|]).
  split; [rewrite Hbegin|rewrite Hu]; reflexivity.
Defined.

(** C8, as stated, fails: with a transaction flagged open and an engine
    on which both the commit and the cleanup rollback raise,
    [commit_transaction] leaves [in_transaction] true, and what it raises is
    the rollback's [sqlite3.Error], not the exception that reports the
    failed commit. *)
Lemma commit_transaction_counterexample :
  let s := Cases.failing_disk_in_transaction in
  in_transaction s = true /\
  fst (commit_transaction s) = Raise (SqliteError "cannot rollback") /\
  in_transaction (snd (commit_transaction s)) = true /\
  calls (snd (commit_transaction s)) =
    [begin_ok; Ev ConnCommit false; Ev ConnRollback false].
Proof. repeat split. Qed.

Lemma commit_transaction_outcomes_witness :
  (* the commit returns *)
  shown (commit_transaction in_caller_transaction) =
    (Return tt, false, [begin_ok; commit_ok]) /\
  (* the commit raises, the rollback returns *)
  shown (commit_transaction locked_in_transaction) =
    (Raise (PyException "Transaction commit failed: database is locked"), false,
     [begin_ok; Ev ConnCommit false; rollback_ok]) /\
  (* the commit and the rollback raise *)
  shown (commit_transaction Cases.failing_disk_in_transaction) =
    (Raise (SqliteError "cannot rollback"), true,
     [begin_ok; Ev ConnCommit false; Ev ConnRollback false]) /\
  (* after close *)
  commit_transaction (snd (close in_caller_transaction)) =
    (Raise (AttributeError "'NoneType' object has no attribute 'commit'"),
     snd (close in_caller_transaction)).
Proof.
  split; [|split; [|split]].
  - destruct (@commit_transaction_outcomes _ _ in_caller_transaction)
      as (Hok & _).
    rewrite (Hok _ eq_refl eq_refl). reflexivity.
  - destruct (@commit_transaction_outcomes _ _ locked_in_transaction)
      as (_ & Hfail & _).
    rewrite (Hfail _ _ _ eq_refl eq_refl eq_refl). reflexivity.
  - destruct (@commit_transaction_outcomes _ _ Cases.failing_disk_in_transaction)
      as (_ & _ & Hboth & _).
    rewrite (Hboth _ _ _ _ eq_refl eq_refl eq_refl). reflexivity.
  - destruct (@commit_transaction_outcomes _ _ (snd (close in_caller_transaction)))
      as (_ & _ & _ & Hclosed).
    exact (Hclosed eq_refl).
Defined.





(** ** C4 *)

(** The paths that bind: the text depends on the column names only. *)
Lemma bound_queries_ignore_values (t : string) (filters1 filters2 kw1 kw2 : kwargs) :
  keys kw1 = keys kw2 -> keys filters1 = keys filters2 ->
  get_query t kw1 = get_query t kw2 /\
  filter_query t kw1 = filter_query t kw2 /\
  exists_query t kw1 = exists_query t kw2 /\
  count_query t kw1 = count_query t kw2 /\
  update_query t filters1 kw1 = update_query t filters2 kw2.
Proof.
  intros Hk Hf.
  assert (Ht : truthy kw1 = truthy kw2).
  { destruct kw1, kw2; try reflexivity; discriminate. }
  unfold get_query, filter_query, exists_query, count_query, update_query,
    placeholders_eq.
  rewrite Hk, Hf, Ht. repeat split.
Qed.

(** C4.  The claim holds of [get], [filter], [exists], [count] and [update]
    and fails for [delete]: with the same column and two values, [delete]
    builds two different statements, the value formatted into the text
    (quotes in the value end up in the SQL), and executes them with no bound
    parameter. *)
Theorem delete_query_interpolates_values :
  let honest := [("name", VStr "Alice")] in
  let hostile := [("name", VStr "x' OR '1'='1")] in
  keys honest = keys hostile /\
  get_query "users" honest = get_query "users" hostile /\
  delete_query "users" honest = "DELETE FROM users WHERE name='Alice';" /\
  delete_query "users" hostile = "DELETE FROM users WHERE name='x' OR '1'='1';" /\
  delete_query "users" honest <> delete_query "users" hostile /\
  calls (snd (delete "users" hostile in_caller_transaction)) =
    [begin_ok;
     Ev (CursorExecute "DELETE FROM users WHERE name='x' OR '1'='1';" []) true].
Proof.
  repeat split. discriminate.
Qed.

(** ** C2 *)

(** C2.  The invariant fails on the error path of [update] (and of
    [delete], which has the same handler): on a fresh instance, where flag
    and log agree that no transaction is open, an update of a missing table
    begins a transaction, fails, and rolls back through
    [self.connection.rollback()]; the rollback closes the transaction but
    [in_transaction] stays true.  [create], whose handler goes through
    [rollback_transaction], leaves the flag clear in the same situation. *)
Theorem update_failure_leaves_flag_set :
  let r := update "ghosts" [("id", VInt 1)] [("name", VStr "x")] without_ghosts in
  let r' := delete "ghosts" [("id", VInt 1)] without_ghosts in
  flag_agrees without_ghosts /\
  fst r = Raise (PyException "Update failed: no such table: ghosts") /\
  calls (snd r) =
    [begin_ok; Ev (CursorExecute ghosts_update [VStr "x"; VInt 1]) false;
     rollback_ok] /\
  in_transaction (snd r) = true /\
  txn_open (calls (snd r)) = false /\
  txn (engine (snd r)) = false /\
  ~ flag_agrees (snd r) /\
  ~ flag_agrees (snd r') /\
  flag_agrees (snd (create "users" alice constrained)).
Proof.
  repeat split; discriminate.
Qed.

End Runs.

(** * Further properties of the methods *)

Section Further.

Context {E : Type} `{Engine E}.

Implicit Types (s : store E) (m : mutation).

Local Arguments String.append : simpl never.

Ltac unfold_store :=
  unfold logged, with_engine, set_in_transaction, of_reply, raise, ret in *;
  simpl in *; rewrite <- ?app_assoc; simpl.

Ltac case_innermost :=
  match goal with
  | |- context [match ?x with _ => _ end] =>
      lazymatch x with
      | context [match _ with _ => _ end] => fail
      | _ => destruct x eqn:?
      end
  end.

Ltac all_paths := repeat (unfold_store; case_innermost); unfold_store.

(** ** Reads *)

(** X1.  [get_table_schema] is [introspect_table] followed by the dict
    comprehension over its rows: the same statement, and [{}] exactly where
    [introspect_table] gives [[]]. *)
Theorem get_table_schema_of_introspect (t : string) s :
  get_table_schema t s =
    match introspect_table t s with
    | (Return rows, s') => schema_dict rows [] s'
    | (Raise e, s') => (Raise e, s')
    end.
Proof.
  unfold get_table_schema, introspect_table, try_sqlite, bind, execute, fetchall.
  destruct (cursor_execute (table_info_query t) [] (engine s)) as [[msg|[]] e1];
    simpl; [reflexivity|].
  destruct (cursor_fetchall e1) as [[msg|rows] e2]; simpl; [reflexivity|].
  match goal with
  | |- context [schema_dict rows [] ?s0] =>
      pose proof (schema_dict_raises rows [] s0) as Hr;
      destruct (schema_dict rows [] s0) as [[d|e] s3]
  end; [reflexivity|].
  rewrite (Hr e eq_refl). reflexivity.
Qed.

(** ** The schema dict *)

Lemma dict_get_set_same (k v : value) (d : pydict) :
  dict_get k (dict_set k v d) = Some v.
Proof.
  induction d as [|[k' v'] d IH]; simpl.
  - destruct (value_eq_dec k k); congruence.
  - destruct (value_eq_dec k k') as [->|Hne]; simpl.
    + destruct (value_eq_dec k' k'); congruence.
    + destruct (value_eq_dec k k'); [contradiction|exact IH].
Qed.

Lemma dict_get_set_other (k k0 v : value) (d : pydict) :
  k0 <> k -> dict_get k0 (dict_set k v d) = dict_get k0 d.
Proof.
  intros Hne. induction d as [|[k' v'] d IH]; simpl.
  - destruct (value_eq_dec k0 k); [contradiction|reflexivity].
  - destruct (value_eq_dec k k') as [->|Hk]; simpl.
    + destruct (value_eq_dec k0 k'); [contradiction|reflexivity].
    + destruct (value_eq_dec k0 k'); [reflexivity|exact IH].
Qed.

Lemma dict_set_truthy (k v : value) (d : pydict) : truthy (dict_set k v d) = true.
Proof.
  destruct d as [|[k' v'] d]; simpl; [reflexivity|].
  destruct (value_eq_dec k k'); reflexivity.
Qed.

(** What the comprehension builds over an accumulator. *)
Lemma schema_dict_contents (rows : list row) :
  forall (acc d : pydict) s,
    fst (schema_dict rows acc s) = Return d ->
    (forall name ty,
       dict_get name d = Some ty ->
       (exists r, In r rows /\ nth_error r 1 = Some name /\ nth_error r 2 = Some ty)
       \/ dict_get name acc = Some ty) /\
    (forall name,
       (exists r, In r rows /\ nth_error r 1 = Some name) \/ dict_get name acc <> None ->
       dict_get name d <> None) /\
    truthy d = truthy rows || truthy acc.
Proof.
  induction rows as [|col rest IH]; intros acc d s; cbn -[nth_error].
  - intros [= <-]. repeat split.
    + auto.
    + intros name [(r & [] & _) | Hacc]. exact Hacc.
  - destruct (nth_error col 1) as [cname|] eqn:Hn; [|discriminate].
    destruct (nth_error col 2) as [cty|] eqn:Ht; [|discriminate].
    intros Hd. destruct (IH _ _ _ Hd) as (Hsound & Hcomplete & Htruthy).
    repeat split.
    + intros name ty Hget.
      destruct (Hsound name ty Hget) as [(r & Hin & Hr1 & Hr2) | Hacc].
      * left. exists r. auto.
      * destruct (value_eq_dec name cname) as [->|Hne].
        -- rewrite dict_get_set_same in Hacc. injection Hacc as <-.
           left. exists col. auto.
        -- rewrite dict_get_set_other in Hacc by exact Hne. auto.
    + intros name Hname. apply Hcomplete.
      destruct Hname as [(r & [<- | Hin] & Hr1) | Hacc].
      * right. rewrite Hn in Hr1. injection Hr1 as <-.
        rewrite dict_get_set_same. discriminate.
      * left. exists r. auto.
      * right. destruct (value_eq_dec name cname) as [->|Hne].
        -- rewrite dict_get_set_same. discriminate.
        -- rewrite dict_get_set_other by exact Hne. exact Hacc.
    + rewrite Htruthy, dict_set_truthy, orb_true_r. reflexivity.
Qed.

Lemma get_table_schema_rows (t : string) s (d : pydict) :
  fst (get_table_schema t s) = Return d ->
  exists rows s1,
    fst (introspect_table t s) = Return rows /\
    fst (schema_dict rows [] s1) = Return d.
Proof.
  unfold get_table_schema, introspect_table, try_sqlite, bind, execute, fetchall.
  destruct (cursor_execute (table_info_query t) [] (engine s)) as [[msg|[]] e1];
    simpl.
  - intros [= <-]. exists [], s. split; reflexivity.
  - destruct (cursor_fetchall e1) as [[msg|rows] e2]; simpl.
    + intros [= <-]. exists [], s. split; reflexivity.
    + match goal with
      | |- context [schema_dict rows [] ?s0] =>
          pose proof (schema_dict_raises rows [] s0) as Hr;
          destruct (schema_dict rows [] s0) as [[d0|e] s3] eqn:Hs
      end; simpl.
      * intros [= <-]. eexists rows, _. split; [reflexivity|].
        rewrite Hs. reflexivity.
      * rewrite (Hr e eq_refl). discriminate.
Qed.

(** X2.  When [get_table_schema] returns a dict: every entry is the name and
    declared type (columns 1 and 2) of a row the engine listed, every listed
    name has an entry, and the dict is empty exactly when no row was
    listed (the case [create] reports as a missing table). *)
Theorem schema_lists_engine_columns (t : string) s (d : pydict) :
  fst (get_table_schema t s) = Return d ->
  exists rows,
    fst (introspect_table t s) = Return rows /\
    (forall name ty,
       dict_get name d = Some ty ->
       exists r, In r rows /\ nth_error r 1 = Some name /\ nth_error r 2 = Some ty) /\
    (forall r name,
       In r rows -> nth_error r 1 = Some name -> dict_get name d <> None) /\
    truthy d = truthy rows.
Proof.
  intros Hg. destruct (get_table_schema_rows t s Hg) as (rows & s1 & Hi & Hd).
  exists rows. split; [exact Hi|].
  destruct (schema_dict_contents rows [] s1 Hd) as (Hsound & Hcomplete & Htruthy).
  repeat split.
  - intros name ty Hget.
    destruct (Hsound name ty Hget) as [Hr | Hacc]; [exact Hr|discriminate].
  - intros r name Hin Hr1. apply Hcomplete. left. exists r. auto.
  - rewrite Htruthy, orb_false_r. reflexivity.
Qed.

(** ** The checks of [create] *)

Lemma check_column_returns (t : string) (schema : pydict) (col : string) (v : value) s :
  fst (check_column t schema col v s) = Return tt <-> column_ok schema (col, v) = true.
Proof.
  unfold check_column, column_ok, type_ok; simpl.
  destruct (dict_get (VStr col) schema) as [[| | | |declared|]|]; simpl;
    try (split; discriminate).
  generalize (upper declared). intros u.
  destruct (String.eqb_spec u "INTEGER") as [->|_]; simpl.
  { destruct (isinstance_int v); simpl; split; (reflexivity || discriminate). }
  destruct (String.eqb_spec u "TEXT") as [->|_]; simpl.
  { destruct (isinstance_str v); simpl; split; (reflexivity || discriminate). }
  destruct (String.eqb_spec u "REAL") as [->|_]; simpl.
  { destruct (isinstance_int_float v); simpl; split; (reflexivity || discriminate). }
  destruct (String.eqb_spec u "BLOB") as [->|_]; simpl.
  { destruct (isinstance_bytes v); simpl; split; (reflexivity || discriminate). }
  split; reflexivity.
Qed.

Lemma for_each_check_returns (t : string) (schema : pydict) (kw : kwargs) s :
  fst (for_each kw (fun '(col, v) => check_column t schema col v) s) = Return tt
  <-> forallb (column_ok schema) kw = true.
Proof.
  induction kw as [|[col v] kw IH]; simpl.
  - split; reflexivity.
  - unfold bind.
    pose proof (check_column_returns t schema col v s) as Hc.
    pose proof (check_column_pure t schema col v s) as Hp.
    destruct (check_column t schema col v s) as [[[]|e] s1]; simpl in Hc, Hp;
      subst s1.
    + rewrite (proj1 Hc eq_refl). simpl. exact IH.
    + split; [discriminate|].
      intros Hall. apply andb_true_iff in Hall. destruct Hall as [Hok _].
      apply Hc in Hok. discriminate.
Qed.

(** [upper] against a word without lower-case letters. *)
Lemma upper_ascii_is (k c : ascii) :
  is_lower_letter k = false ->
  (upper_ascii c =? k)%char = same_letter k c.
Proof.
  unfold is_lower_letter, same_letter, is_upper_letter, upper_ascii. intros Hk.
  pose proof (nat_ascii_bounded c) as Hc.
  assert (Hinj : c = k -> nat_of_ascii c = nat_of_ascii k) by (intros ->; reflexivity).
  assert (Hdown : ascii_of_nat (nat_of_ascii c - 32) = k ->
                  nat_of_ascii k = nat_of_ascii c - 32).
  { intros <-. apply nat_ascii_embedding. lia. }
  assert (Hback : nat_of_ascii c = nat_of_ascii k + 32 ->
                  ascii_of_nat (nat_of_ascii c - 32) = k).
  { intros ->. rewrite Nat.add_sub. apply ascii_nat_embedding. }
  destruct (Nat.leb_spec 97 (nat_of_ascii k));
    destruct (Nat.leb_spec (nat_of_ascii k) 122);
    cbn [andb] in Hk; try discriminate;
    destruct (Nat.leb_spec 97 (nat_of_ascii c));
    destruct (Nat.leb_spec (nat_of_ascii c) 122);
    destruct (Nat.leb_spec 65 (nat_of_ascii k));
    destruct (Nat.leb_spec (nat_of_ascii k) 90);
    destruct (Nat.eqb_spec (nat_of_ascii c) (nat_of_ascii k + 32));
    destruct (Ascii.eqb_spec c k);
    cbn [andb orb]; try lia; try reflexivity;
    try (apply Ascii.eqb_eq; auto; fail);
    try (apply Ascii.eqb_neq; assumption);
    try (apply Ascii.eqb_neq; intros Heq; apply Hdown in Heq; lia);
    try (specialize (Hinj ltac:(assumption)); lia).
Qed.

Lemma upper_spells (word : string) :
  no_lower_letter word = true ->
  forall d, (upper d =? word) = spells word d.
Proof.
  induction word as [|k word IH]; intros Hw [|c d]; simpl; try reflexivity.
  simpl in Hw. apply andb_true_iff in Hw. destruct Hw as [Hk Hw].
  apply negb_true_iff in Hk.
  rewrite (upper_ascii_is k c Hk), (IH Hw d).
  destruct (same_letter k c); reflexivity.
Qed.

(** The test of the loop is the table. *)
Lemma type_ok_accepts (declared : string) (v : value) :
  type_ok (upper declared) v = accepts (declared_kind declared) v.
Proof.
  unfold type_ok, declared_kind.
  rewrite !upper_spells by reflexivity.
  destruct (spells "INTEGER" declared); [destruct v; reflexivity|].
  destruct (spells "TEXT" declared); [destruct v; reflexivity|].
  destruct (spells "REAL" declared); [destruct v; reflexivity|].
  destruct (spells "BLOB" declared); [destruct v; reflexivity|].
  reflexivity.
Qed.

Lemma check_column_accepts (t : string) (schema : pydict) (col : string) (v : value) s :
  fst (check_column t schema col v s) = Return tt <->
  exists declared,
    dict_get (VStr col) schema = Some (VStr declared) /\
    accepts (declared_kind declared) v = true.
Proof.
  rewrite check_column_returns. unfold column_ok. simpl.
  destruct (dict_get (VStr col) schema) as [[| | | |declared|]|];
    try (split; [discriminate|intros (d & [=] & _)]).
  rewrite type_ok_accepts. split.
  - intros Hok. exists declared. auto.
  - intros (d & [= <-] & Hok). exact Hok.
Qed.

(** X3.  For a table whose declared column types are written in ASCII:
    [create] gets past its checks exactly when it is given at least one
    column, the schema lookup returns a non-empty dict, and every given
    column is in that dict with a value of the Python type its declared
    type asks for: [int] (or [bool]) for INTEGER, [str] for TEXT, [int],
    [bool] or [float] for REAL, [bytes] for BLOB, the declared type read
    without regard to letter case; a column declared with any other type
    takes any value. *)
Theorem create_checks_pass_iff (t : string) (kw : kwargs) s :
  (forall schema,
     fst (get_table_schema t s) = Return schema ->
     declared_in_ascii schema = true) ->
  (fst (create_checks t kw s) = Return tt <->
   truthy kw = true /\
   exists schema,
     fst (get_table_schema t s) = Return schema /\
     truthy schema = true /\
     forall col v,
       In (col, v) kw ->
       exists declared,
         dict_get (VStr col) schema = Some (VStr declared) /\
         accepts (declared_kind declared) v = true).
Proof.
  intros _.
  assert (Hall : forall schema,
             forallb (column_ok schema) kw = true <->
             forall col v, In (col, v) kw ->
               exists declared,
                 dict_get (VStr col) schema = Some (VStr declared) /\
                 accepts (declared_kind declared) v = true).
  { intros schema. rewrite forallb_forall. split.
    - intros Hok col v Hin.
      apply (check_column_accepts t schema col v s), check_column_returns.
      exact (Hok _ Hin).
    - intros Hok [col v] Hin.
      apply (check_column_returns t schema col v s), check_column_accepts.
      exact (Hok _ _ Hin). }
  unfold create_checks, bind.
  destruct (truthy kw); simpl.
  - destruct (get_table_schema t s) as [[schema|e] s1]; simpl.
    + destruct (truthy schema) eqn:Hs; simpl.
      * rewrite for_each_check_returns, Hall. split.
        -- intros Hok. split; [reflexivity|]. exists schema. auto.
        -- intros (_ & schema' & [= <-] & _ & Hok). exact Hok.
      * split; [discriminate|].
        intros (_ & schema' & [= <-] & Hs' & _). congruence.
    + split; [discriminate|]. intros (_ & schema' & Hd & _). discriminate.
  - split; [discriminate|]. intros [Hf _]. discriminate.
Qed.

(** X4.  For a column whose declared type is written in ASCII: a value
    [None] is refused when the column is declared INTEGER, TEXT, REAL or
    BLOB, in any letter case, and accepted when it is declared otherwise;
    [True] and [False] are accepted as INTEGER and as REAL, and refused
    with [TypeError] as TEXT and as BLOB. *)
Theorem create_type_test_edges (t : string) (schema : pydict)
  (col declared : string) s :
  dict_get (VStr col) schema = Some (VStr declared) ->
  ascii_only declared = true ->
  (fst (check_column t schema col VNone s) = Return tt <->
   spells "INTEGER" declared = false /\ spells "TEXT" declared = false /\
   spells "REAL" declared = false /\ spells "BLOB" declared = false) /\
  (forall b : bool,
     spells "INTEGER" declared = true \/ spells "REAL" declared = true ->
     fst (check_column t schema col (VBool b) s) = Return tt) /\
  (forall b : bool,
     spells "TEXT" declared = true ->
     fst (check_column t schema col (VBool b) s) =
       Raise (TypeError ("Value for column '" ++ col ++ "' should be of type TEXT"))) /\
  (forall b : bool,
     spells "BLOB" declared = true ->
     fst (check_column t schema col (VBool b) s) =
       Raise (TypeError ("Value for column '" ++ col ++ "' should be of type BLOB"))).
Proof.
  intros Hd _.
  assert (Hone : forall w1 w2 : string,
             no_lower_letter w1 = true -> no_lower_letter w2 = true ->
             spells w1 declared = true -> spells w2 declared = true -> w1 = w2).
  { intros w1 w2 Hn1 Hn2 H1 H2.
    rewrite <- (upper_spells w1 Hn1) in H1. rewrite <- (upper_spells w2 Hn2) in H2.
    apply String.eqb_eq in H1, H2. congruence. }
  split; [|split; [|split]].
  - rewrite check_column_accepts. unfold declared_kind. split.
    + intros (d & Hd' & Hacc). rewrite Hd in Hd'. injection Hd' as <-.
      destruct (spells "INTEGER" declared); [discriminate|].
      destruct (spells "TEXT" declared); [discriminate|].
      destruct (spells "REAL" declared); [discriminate|].
      destruct (spells "BLOB" declared); [discriminate|]. auto.
    + intros (H1 & H2 & H3 & H4). exists declared.
      rewrite H1, H2, H3, H4. auto.
  - intros b Hk. apply check_column_accepts. exists declared.
    split; [exact Hd|]. unfold declared_kind.
    destruct Hk as [-> | Hk]; [reflexivity|].
    destruct (spells "INTEGER" declared); [reflexivity|].
    destruct (spells "TEXT" declared) eqn:Ht.
    { discriminate (Hone "TEXT" "REAL" eq_refl eq_refl Ht Hk). }
    rewrite Hk. reflexivity.
  - intros b Hk. unfold check_column. rewrite Hd. cbv zeta.
    rewrite !upper_spells by reflexivity.
    destruct (spells "INTEGER" declared) eqn:Hi.
    { discriminate (Hone "INTEGER" "TEXT" eq_refl eq_refl Hi Hk). }
    rewrite Hk. reflexivity.
  - intros b Hk. unfold check_column. rewrite Hd. cbv zeta.
    rewrite !upper_spells by reflexivity.
    destruct (spells "INTEGER" declared) eqn:Hi.
    { discriminate (Hone "INTEGER" "BLOB" eq_refl eq_refl Hi Hk). }
    destruct (spells "TEXT" declared) eqn:Ht.
    { discriminate (Hone "TEXT" "BLOB" eq_refl eq_refl Ht Hk). }
    destruct (spells "REAL" declared) eqn:Hr.
    { discriminate (Hone "REAL" "BLOB" eq_refl eq_refl Hr Hk). }
    rewrite Hk. reflexivity.
Qed.

(** ** Reads and the transaction *)

Lemma first_column_pure (r : option row) s : snd (first_column r s) = s.
Proof. destruct r as [[|v r]|]; reflexivity. Qed.

(** What a read leaves behind. *)
Lemma after_read_store (r : read) s :
  (refused r = true /\ after_read r s = s) \/
  (refused r = false /\
   exists (e : E) (ok : bool),
     after_read r s =
       mkStore e (connection s) (in_transaction s)
         (calls s ++ [Ev (CursorExecute (read_query r) (read_params r)) ok])).
Proof.
  destruct r as [t kw|t kw|t|t kw|t kw|t|t|t]; simpl.
  - unfold get, bind. destruct (truthy kw); simpl; [right|left; auto].
    split; [reflexivity|].
    unfold try_sqlite, bind, execute, fetchone. all_paths; eauto.
  - right. split; [reflexivity|].
    unfold filter, try_sqlite, bind, execute, fetchall.
    destruct (truthy kw); all_paths; eauto.
  - right. split; [reflexivity|].
    unfold all, try_sqlite, bind, execute, fetchall. all_paths; eauto.
  - unfold exists_, bind. destruct (truthy kw); simpl; [right|left; auto].
    split; [reflexivity|].
    unfold try_sqlite, bind, execute, fetchone. all_paths; eauto.
  - right. split; [reflexivity|].
    unfold count, try_sqlite, bind, execute, fetchone, first_column.
    destruct (truthy kw); all_paths; eauto.
  - right. split; [reflexivity|].
    unfold get_table_schema, try_sqlite, bind, execute, fetchall.
    destruct (cursor_execute _ _ (engine s)) as [[m1|[]] e1]; unfold_store;
      [eauto|].
    destruct (cursor_fetchall e1) as [[m2|rows] e2]; unfold_store; [eauto|].
    match goal with
    | |- context [schema_dict rows [] ?s0] =>
        pose proof (schema_dict_pure rows [] s0) as Hp;
        destruct (schema_dict rows [] s0) as [[v|[]] s3]
    end; simpl in *; subst; eauto.
  - right. split; [reflexivity|].
    unfold introspect_table, try_sqlite, bind, execute, fetchall.
    all_paths; eauto.
  - right. split; [reflexivity|].
    unfold table_exists, try_sqlite, bind, execute, fetchone.
    all_paths; eauto.
Qed.

(** X5.  A read never touches the transaction: [in_transaction] and the
    connection attribute are as before, and the only call issued is one
    [execute] of the read's statement with its parameters (none at all when
    [get] or [exists] refuses an empty filter set) -- no begin, commit or
    rollback, inside a caller's transaction or outside. *)
Theorem reads_issue_one_statement (r : read) s :
  in_transaction (after_read r s) = in_transaction s /\
  connection (after_read r s) = connection s /\
  (if refused r then new_calls s (after_read r s) = []
   else exists ok,
       new_calls s (after_read r s) =
         [Ev (CursorExecute (read_query r) (read_params r)) ok]) /\
  (flag_agrees s -> flag_agrees (after_read r s)).
Proof.
  destruct (after_read_store r s) as [[-> ->] | (-> & e & ok & ->)]; simpl.
  - repeat split; auto. apply new_calls_same. reflexivity.
  - repeat split.
    + exists ok. apply new_calls_app. reflexivity.
    + unfold flag_agrees. simpl. intros ->.
      rewrite txn_open_app. reflexivity.
Qed.

(** ** Which methods wrap the engine's errors *)

Lemma create_checks_wraps (t : string) (kw : kwargs) : wraps (create_checks t kw).
Proof.
  intros s msg. unfold create_checks, bind.
  destruct (truthy kw); simpl; [|discriminate].
  pose proof (get_table_schema_answer t s) as Ha.
  destruct (get_table_schema t s) as [[schema|e] s1]; simpl in *.
  - destruct (truthy schema); simpl; [|discriminate].
    generalize s1. clear. induction kw as [|[col v] kw IH]; intros s1; simpl.
    + discriminate.
    + unfold bind.
      pose proof (check_column_raises t schema col v s1) as Hr.
      destruct (check_column t schema col v s1) as [[[]|e] s2]; simpl in *.
      * apply IH.
      * destruct (Hr e eq_refl) as [Hv | [m0 ->]]; [|discriminate].
        destruct e; simpl in Hv; discriminate.
  - destruct (select_all _ _ _) as [|rows]; [discriminate|].
    symmetry in Ha. apply schema_dict_raises in Ha. subst e. discriminate.
Qed.

Lemma attempt_insert_wraps (t : string) (kw : kwargs) : wraps (attempt (Insert t kw)).
Proof.
  intros s msg.
  destruct (open_if_needed s) as [[b|e0] s2] eqn:Ho.
  - destruct (cursor_execute (statement (Insert t kw)) (parameters (Insert t kw))
                (engine s2)) as [[cause|[]] e3] eqn:He.
    + rewrite (attempt_execute_fails _ s Ho He).
      unfold handler, rollback_transaction, try_sqlite, bind,
        read_in_transaction, connection_rollback, on_connection.
      all_paths; discriminate.
    + rewrite (attempt_execute_ok _ s Ho He).
      unfold handler, commit_if_opened, commit_transaction,
        rollback_transaction, try_sqlite, bind, read_in_transaction,
        connection_commit, connection_rollback, on_connection.
      all_paths; discriminate.
  - rewrite (attempt_open_raises _ s Ho). simpl.
    destruct (open_if_needed_raises _ Ho) as (_ & _ & _ & Hne & _).
    intros [= ->]. exact (Hne msg eq_refl).
Qed.

(** X8.  [create], [begin_transaction], [rollback_transaction], [create_table]
    and [close] never let a [sqlite3.Error] out: whatever the engine raises
    comes out as [Exception] (or is absorbed by the schema lookup). *)
Theorem engine_errors_wrapped (t : string) (kw : kwargs)
  (columns : list (string * string)) :
  wraps (create t kw) /\
  wraps begin_transaction /\
  wraps rollback_transaction /\
  wraps (create_table t columns) /\
  wraps close.
Proof.
  split; [|split; [|split; [|split]]]; intros s msg.
  - unfold create, bind.
    pose proof (create_checks_wraps t kw) as Hc. specialize (Hc s msg).
    pose proof (attempt_insert_wraps t kw) as Ha.
    destruct (create_checks t kw s) as [[[]|e] s1]; simpl in *.
    + exact (Ha s1 msg).
    + intros [= ->]. apply Hc. reflexivity.
  - unfold begin_transaction, try_sqlite, bind, connection_execute, on_connection.
    all_paths; discriminate.
  - unfold rollback_transaction, try_sqlite, bind, read_in_transaction,
      connection_rollback, on_connection.
    all_paths; discriminate.
  - unfold create_table, try_sqlite, bind, execute, connection_commit,
      on_connection.
    all_paths; discriminate.
  - unfold close, try_sqlite, bind, connection_close, on_connection.
    all_paths; discriminate.
Qed.

(** X9.  The rollback in the handlers of [commit_transaction], [drop_table],
    [update] and [delete] is not protected: when the commit or the
    statement raises and the rollback raises too, the rollback's
    [sqlite3.Error] is what comes out, and the exception naming the first
    cause is never raised.  In [create] the same situation raises
    [Exception("Transaction rollback failed: ...")]. *)
Theorem rollback_error_masks_cause (cause cause' : string) :
  (forall s (e1 e2 : E),
     connection s = true ->
     conn_commit (engine s) = (inl cause, e1) ->
     conn_rollback e1 = (inl cause', e2) ->
     fst (commit_transaction s) = Raise (SqliteError cause') /\
     in_transaction (snd (commit_transaction s)) = in_transaction s) /\
  (forall (t : string) s (e1 e2 : E),
     connection s = true ->
     cursor_execute (drop_table_query t) [] (engine s) = (inl cause, e1) ->
     conn_rollback e1 = (inl cause', e2) ->
     fst (drop_table t s) = Raise (SqliteError cause')) /\
  (forall m s s1 (b : bool) s2 (e3 e4 : E),
     checks m s = (Return tt, s1) ->
     connection s = true ->
     open_if_needed s1 = (Return b, s2) ->
     cursor_execute (statement m) (parameters m) (engine s2) = (inl cause, e3) ->
     conn_rollback e3 = (inl cause', e4) ->
     fst (run m s) =
       match m with
       | Insert _ _ => Raise (PyException ("Transaction rollback failed: " ++ cause'))
       | _ => Raise (SqliteError cause')
       end).
Proof.
  split; [|split].
  - intros s e1 e2 Hc Hcm Hrb.
    rewrite (commit_transaction_fails s Hc Hcm), Hrb. split; reflexivity.
  - intros t s e1 e2 Hc He Hrb.
    unfold drop_table, try_sqlite, bind, execute, connection_rollback,
      on_connection.
    rewrite He. simpl. rewrite Hc, Hrb. reflexivity.
  - intros m s s1 b s2 e3 e4 Hck Hc Ho He Hrb.
    pose proof (checks_frame m s) as [_ Hc1]. rewrite Hck in Hc1. simpl in Hc1.
    pose proof (open_if_needed_returns _ Ho) as (Hf2 & Hc2 & _ & _).
    assert (Hrun : run m s = attempt m s1)
      by (rewrite run_eq; unfold bind; rewrite Hck; reflexivity).
    rewrite Hrun, (attempt_execute_fails m s1 Ho He).
    destruct m as [t kw|t filters kw|t kw];
      unfold handler, rollback_transaction, try_sqlite, bind,
        read_in_transaction, connection_rollback, on_connection; simpl;
      rewrite ?Hf2; simpl; rewrite Hc2, Hc1, Hc, Hrb; reflexivity.
Qed.

(** ** Where the flag keeps following the log *)

Lemma keeps_ret {A} (a : A) : keeps (@ret E A a).
Proof. intros s Hs. exact Hs. Qed.

Lemma keeps_raise {A} (e : exn) : keeps (@raise E A e).
Proof. intros s Hs. exact Hs. Qed.

Lemma keeps_bind {A B} (method : M E A) (k : A -> M E B) :
  keeps method -> (forall a, keeps (k a)) -> keeps (bind method k).
Proof.
  intros Hm Hk s Hs. unfold bind. specialize (Hm s Hs).
  destruct (method s) as [[a|e] s1]; simpl in *.
  - apply Hk. exact Hm.
  - exact Hm.
Qed.

Lemma keeps_try {A} (body : M E A) (h : string -> M E A) :
  keeps body -> (forall cause, keeps (h cause)) -> keeps (try_sqlite body h).
Proof.
  intros Hb Hh s Hs. unfold try_sqlite. specialize (Hb s Hs).
  destruct (body s) as [[a|[]] s1]; simpl in *; try exact Hb.
  apply Hh. exact Hb.
Qed.

Lemma keeps_read_in_transaction : keeps (@read_in_transaction E).
Proof. intros s Hs. exact Hs. Qed.

Lemma keeps_execute (query : string) (params : list value) :
  keeps (execute query params).
Proof.
  intros s. unfold flag_agrees, execute.
  destruct (cursor_execute query params (engine s)) as [[msg|[]] e1]; simpl;
    intros ->; rewrite txn_open_app; reflexivity.
Qed.

Lemma keeps_open_if_needed : keeps open_if_needed.
Proof.
  apply keeps_bind; [apply keeps_read_in_transaction|].
  intros [|]; simpl; [apply keeps_ret|].
  apply keeps_bind; [|intros; apply keeps_ret].
  intros s Hs. apply (controls_keep_flag Hs).
Qed.

Lemma keeps_commit_if_opened (b : bool) : keeps (commit_if_opened b).
Proof.
  apply keeps_bind; [apply keeps_read_in_transaction|].
  intros flag. destruct (negb flag || b); [|apply keeps_ret].
  intros s Hs. apply (controls_keep_flag Hs).
Qed.

Lemma keeps_rollback_transaction : keeps rollback_transaction.
Proof. intros s Hs. apply (controls_keep_flag Hs). Qed.

(** What is inside the [try] of a mutating method, before any handler. *)
Lemma keeps_attempt_body m :
  keeps (bind open_if_needed (fun b =>
         bind (execute (statement m) (parameters m)) (fun _ =>
         bind (commit_if_opened b) (fun _ s' =>
         (Return (result m (engine s')), s'))))).
Proof.
  apply keeps_bind; [apply keeps_open_if_needed|]. intros b.
  apply keeps_bind; [apply keeps_execute|]. intros _.
  apply keeps_bind; [apply keeps_commit_if_opened|]. intros _.
  intros s Hs. exact Hs.
Qed.

Lemma keeps_create (t : string) (kw : kwargs) : keeps (create t kw).
Proof.
  apply keeps_bind.
  - intros s Hs.
    destruct (create_checks_frame t kw s) as (Hf & _ & [-> | ->]); [exact Hs|].
    destruct (get_table_schema_frame t s) as (Hf' & _ & ok & Hc).
    unfold flag_agrees in *. rewrite Hf', Hc, txn_open_app. exact Hs.
  - intros _. change (create_try t kw) with (attempt (Insert t kw)).
    apply keeps_try; [apply keeps_attempt_body|].
    intros cause. unfold handler.
    apply keeps_bind; [apply keeps_read_in_transaction|]. intros flag.
    apply keeps_bind; [|intros; apply keeps_raise].
    destruct flag; [apply keeps_rollback_transaction|apply keeps_ret].
Qed.

(** A mutating method that returns normally went through no handler. *)
Lemma attempt_returns_keeps m s (v : value) s' :
  flag_agrees s -> attempt m s = (Return v, s') -> flag_agrees s'.
Proof.
  intros Hs. unfold attempt, try_sqlite.
  pose proof (keeps_attempt_body m) as Hb. specialize (Hb s Hs).
  match type of Hb with
  | flag_agrees (snd (?body s)) => destruct (body s) as [[a|[]] s1]
  end; simpl in Hb; try discriminate.
  - intros [= _ <-]. exact Hb.
  - destruct (handler_rolls_back m msg s1) as [[e He] _].
    intros Hr. rewrite Hr in He. discriminate.
Qed.

Lemma keeps_read (r : read) s : flag_agrees s -> flag_agrees (after_read r s).
Proof.
  destruct (after_read_store r s) as [[_ ->] | (_ & e & ok & ->)];
    [auto|].
  unfold flag_agrees. simpl. intros ->. rewrite txn_open_app. reflexivity.
Qed.

Lemma update_returns_keeps (t : string) (filters kw : kwargs) s (n : Z) s' :
  flag_agrees s -> update t filters kw s = (Return n, s') -> flag_agrees s'.
Proof.
  intros Hs. unfold update, update_checks, bind.
  destruct (negb (truthy filters) || negb (truthy kw)); simpl; [discriminate|].
  intros Hu. destruct (update_try_attempt t filters kw s) as [Hst Hr].
  rewrite Hu in Hst, Hr. simpl in Hst, Hr.
  apply (@attempt_returns_keeps (Update t filters kw) s (VInt n) s' Hs).
  destruct (attempt (Update t filters kw) s) as [o s1]; simpl in *.
  congruence.
Qed.

Lemma delete_returns_keeps (t : string) (kw : kwargs) s (n : Z) s' :
  flag_agrees s -> delete t kw s = (Return n, s') -> flag_agrees s'.
Proof.
  intros Hs Hd. destruct (delete_attempt t kw s) as [Hst Hr].
  rewrite Hd in Hst, Hr. simpl in Hst, Hr.
  apply (@attempt_returns_keeps (Delete t kw) s (VInt n) s' Hs).
  destruct (attempt (Delete t kw) s) as [o s1]; simpl in *.
  congruence.
Qed.

(** X10.  From a store where [in_transaction] is set exactly when the log has a
    transaction open (a fresh instance is one), a program that calls the
    transaction controls, [create] and the reads in any order and any
    number of times, and whose [update] and [delete] calls all return,
    always leaves it so, on every path of every call. *)
Theorem flag_exact_while_updates_return s0 s :
  flag_agrees s0 -> call_steps s0 s -> flag_agrees s.
Proof.
  intros H0 Hsteps. induction Hsteps as [|s0 s1 s2 _ IH Hstep].
  - exact H0.
  - specialize (IH H0).
    destruct Hstep as [s1|s1|s1|t kw s1|r s1|t filters kw s1 n s2 Hu|t kw s1 n s2 Hd].
    + apply (controls_keep_flag IH).
    + apply (controls_keep_flag IH).
    + apply (controls_keep_flag IH).
    + apply keeps_create. exact IH.
    + apply keeps_read. exact IH.
    + exact (update_returns_keeps _ _ _ IH Hu).
    + exact (delete_returns_keeps _ _ IH Hd).
Qed.

(** ** Table creation and removal *)

(** X11.  [create_table] and [drop_table] never touch [in_transaction], and when
    their statement has executed they call [self.connection.commit()]
    themselves: run inside a caller's transaction, they commit it, after
    which the log has no transaction open while the flag is still set. *)
Theorem ddl_commits_behind_the_flag (t : string) (columns : list (string * string)) s :
  in_transaction (snd (create_table t columns s)) = in_transaction s /\
  in_transaction (snd (drop_table t s)) = in_transaction s /\
  (connection s = true ->
   forall e1 e2 : E,
     conn_commit e1 = (inr tt, e2) ->
     (cursor_execute (create_table_query t columns) [] (engine s) = (inr tt, e1) ->
      create_table t columns s =
        (Return tt,
         mkStore e2 true (in_transaction s)
           (calls s ++ [Ev (CursorExecute (create_table_query t columns) []) true;
                        Ev ConnCommit true])) /\
      txn_open (calls (snd (create_table t columns s))) = false) /\
     (cursor_execute (drop_table_query t) [] (engine s) = (inr tt, e1) ->
      drop_table t s =
        (Return tt,
         mkStore e2 true (in_transaction s)
           (calls s ++ [Ev (CursorExecute (drop_table_query t) []) true;
                        Ev ConnCommit true])) /\
      txn_open (calls (snd (drop_table t s))) = false)).
Proof.
  split; [|split].
  - unfold create_table, try_sqlite, bind, execute, connection_commit,
      on_connection.
    all_paths; reflexivity.
  - unfold drop_table, try_sqlite, bind, execute, connection_commit,
      connection_rollback, on_connection.
    all_paths; reflexivity.
  - intros Hc e1 e2 Hcm. split; intros He.
    + assert (Hrun : create_table t columns s =
               (Return tt,
                mkStore e2 true (in_transaction s)
                  (calls s ++ [Ev (CursorExecute (create_table_query t columns) []) true;
                               Ev ConnCommit true]))).
      { unfold create_table, try_sqlite, bind, execute, connection_commit,
          on_connection.
        rewrite He. simpl. rewrite Hc, Hcm. unfold_store. rewrite Hc. reflexivity. }
      rewrite Hrun. split; [reflexivity|].
      simpl. rewrite txn_open_app. reflexivity.
    + assert (Hrun : drop_table t s =
               (Return tt,
                mkStore e2 true (in_transaction s)
                  (calls s ++ [Ev (CursorExecute (drop_table_query t) []) true;
                               Ev ConnCommit true]))).
      { unfold drop_table, try_sqlite, bind, execute, connection_commit,
          on_connection.
        rewrite He. simpl. rewrite Hc, Hcm. unfold_store. rewrite Hc. reflexivity. }
      rewrite Hrun. split; [reflexivity|].
      simpl. rewrite txn_open_app. reflexivity.
Qed.

(** X12.  When its statement is rejected, [create_table] raises
    [Exception("Table creation failed: <cause>")] and issues nothing more;
    it issues no rollback on any path.  [drop_table] issues a rollback
    through the connection and, once that returns, raises
    [Exception("Table drop failed: <cause>")]. *)
Theorem ddl_failure_paths (t : string) (columns : list (string * string)) s
  (cause : string) (e1 : E) :
  none_issued is_rollback (new_calls s (snd (create_table t columns s))) = true /\
  (cursor_execute (create_table_query t columns) [] (engine s) = (inl cause, e1) ->
   create_table t columns s =
     (Raise (PyException ("Table creation failed: " ++ cause)),
      mkStore e1 (connection s) (in_transaction s)
        (calls s ++ [Ev (CursorExecute (create_table_query t columns) []) false]))) /\
  (cursor_execute (drop_table_query t) [] (engine s) = (inl cause, e1) ->
   connection s = true ->
   forall e2 : E,
     conn_rollback e1 = (inr tt, e2) ->
     drop_table t s =
       (Raise (PyException ("Table drop failed: " ++ cause)),
        mkStore e2 true (in_transaction s)
          (calls s ++ [Ev (CursorExecute (drop_table_query t) []) false;
                       Ev ConnRollback true]))).
Proof.
  split; [|split].
  - unfold new_calls, create_table, try_sqlite, bind, execute,
      connection_commit, on_connection.
    all_paths; rewrite ?skipn_app, ?skipn_all, ?Nat.sub_diag; reflexivity.
  - intros He.
    unfold create_table, try_sqlite, bind, execute. rewrite He. reflexivity.
  - intros He Hc e2 Hrb.
    unfold drop_table, try_sqlite, bind, execute, connection_rollback,
      on_connection.
    rewrite He. simpl. rewrite Hc, Hrb. unfold_store. rewrite Hc. reflexivity.
Qed.

(** ** Calling twice *)

(** X13.  [close] and [rollback_transaction] are idempotent: on every store,
    calling the method twice in a row gives the outcome and the store of
    calling it once (the second call finds the connection [None], or the
    flag clear).  [close] leaves [in_transaction] as it found it, set or
    not. *)
Theorem close_and_rollback_idempotent s :
  bind close (fun _ => close) s = close s /\
  bind rollback_transaction (fun _ => rollback_transaction) s
    = rollback_transaction s /\
  in_transaction (snd (close s)) = in_transaction s.
Proof.
  split; [|split].
  - unfold close, try_sqlite, bind, connection_close, on_connection.
    all_paths; try reflexivity; discriminate.
  - unfold rollback_transaction, try_sqlite, bind, read_in_transaction,
      connection_rollback, on_connection.
    all_paths; try reflexivity; congruence.
  - unfold close, try_sqlite, bind, connection_close, on_connection.
    all_paths; reflexivity.
Qed.

(** ** Mutations inside the caller's transaction *)

(** X15.  A statement that fails inside a transaction the caller has opened rolls
    the caller's transaction back (whatever the caller had done in it) and
    raises with the cause; after [create] the flag is cleared, after
    [update] and [delete] it stays set. *)
Theorem failure_inside_caller_transaction m s s1 (cause : string) (e3 e4 : E) :
  checks m s = (Return tt, s1) ->
  in_transaction s = true -> connection s = true ->
  cursor_execute (statement m) (parameters m) (engine s1) = (inl cause, e3) ->
  conn_rollback e3 = (inr tt, e4) ->
  run m s =
    (Raise (PyException (failure_prefix m ++ cause)),
     mkStore e4 true
       (match m with Insert _ _ => false | _ => true end)
       (calls s1 ++ [Ev (CursorExecute (statement m) (parameters m)) false;
                     Ev ConnRollback true])).
Proof.
  intros Hck Hf Hc He Hrb.
  pose proof (checks_frame m s) as [Hf1 Hc1]. rewrite Hck in Hf1, Hc1.
  simpl in Hf1, Hc1.
  assert (Hf2 : in_transaction s1 = true) by congruence.
  assert (Hc2 : connection s1 = true) by congruence.
  assert (Hrun : run m s = attempt m s1)
    by (rewrite run_eq; unfold bind; rewrite Hck; reflexivity).
  rewrite Hrun, (attempt_execute_fails m s1 (open_if_needed_flagged s1 Hf2) He).
  destruct m as [t kw|t filters kw|t kw];
    unfold handler, rollback_transaction, try_sqlite, bind,
      read_in_transaction, connection_rollback, on_connection; simpl;
    rewrite ?Hf2; simpl; rewrite Hc2, Hrb; unfold_store; reflexivity.
Qed.

Lemma run_returns_inside_transaction m s (v : value) s' :
  in_transaction s = true -> run m s = (Return v, s') ->
  in_transaction s' = true /\
  exists added,
    calls s' = (calls s ++ added)%list /\
    none_issued is_begin added = true /\
    none_issued is_commit added = true /\
    none_issued is_rollback added = true.
Proof.
  intros Hf. rewrite run_eq. unfold bind.
  pose proof (checks_frame m s) as [Hf1 _].
  pose proof (checks_calls m s) as (added & Hadd & Hnb & Hnc & Hnr).
  destruct (checks m s) as [[[]|e] s1]; simpl in *; [|discriminate].
  assert (Hf2 : in_transaction s1 = true) by congruence.
  destruct (cursor_execute (statement m) (parameters m) (engine s1))
    as [[cause|[]] e3] eqn:He.
  - rewrite (attempt_execute_fails m s1 (open_if_needed_flagged s1 Hf2) He).
    match goal with
    | |- handler m cause ?s0 = _ -> _ =>
        destruct (handler_rolls_back m cause s0) as [[e Hr] _]
    end.
    intros Hh. rewrite Hh in Hr. discriminate.
  - rewrite (attempt_in_caller_transaction m s1 Hf2 He).
    intros [= _ <-]. simpl. split; [reflexivity|].
    exists (added ++ [Ev (CursorExecute (statement m) (parameters m)) true])%list.
    rewrite Hadd, <- app_assoc, !none_issued_app, Hnb, Hnc, Hnr. auto.
Qed.

Lemma run_each_inside_transaction (ms : list mutation) :
  forall s s',
    in_transaction s = true -> run_each ms s = (Return tt, s') ->
    in_transaction s' = true /\
    exists added,
      calls s' = (calls s ++ added)%list /\
      none_issued is_begin added = true /\
      none_issued is_commit added = true /\
      none_issued is_rollback added = true.
Proof.
  induction ms as [|m ms IH]; intros s s' Hf; simpl.
  - intros [= <-]. split; [exact Hf|]. exists []. rewrite app_nil_r. auto.
  - unfold run_each in *. simpl. unfold bind at 1. unfold bind at 1.
    destruct (run m s) as [[v|e] s1] eqn:Hrun; simpl; [|discriminate].
    destruct (run_returns_inside_transaction m s Hf Hrun)
      as (Hf1 & a1 & Hc1 & Hb1 & Hm1 & Hr1).
    intros Hrest.
    destruct (IH s1 s' Hf1 Hrest) as (Hf' & a2 & Hc2 & Hb2 & Hm2 & Hr2).
    split; [exact Hf'|]. exists (a1 ++ a2)%list.
    rewrite Hc2, Hc1, <- app_assoc, !none_issued_app, Hb1, Hb2, Hm1, Hm2,
      Hr1, Hr2. auto.
Qed.

(** X16.  A caller that has opened a transaction and runs any number of mutating
    methods which all return: none of them issues a begin, a commit or a
    rollback, and the flag is still set, so the whole batch stays in the
    caller's transaction until the caller ends it. *)
Theorem batch_stays_in_caller_transaction (ms : list mutation) s s' :
  in_transaction s = true ->
  run_each ms s = (Return tt, s') ->
  in_transaction s' = true /\
  none_issued is_begin (new_calls s s') = true /\
  none_issued is_commit (new_calls s s') = true /\
  none_issued is_rollback (new_calls s s') = true.
Proof.
  intros Hf Hrun.
  destruct (run_each_inside_transaction ms s Hf Hrun)
    as (Hf' & added & Hc & Hb & Hm & Hr).
  rewrite (new_calls_app _ _ _ Hc). auto.
Qed.

(** X17.  Once a failed [update] or [delete] has left the flag set with no
    transaction open, the mutating methods called afterwards take it for a
    caller's transaction: as long as they return, none of them begins or
    commits anything, and the flag stays set. *)
Theorem stuck_flag_disables_auto_commit m s (e2 e3 e4 : E) (cause : string)
  (ms : list mutation) s' :
  (forall t kw, m <> Insert t kw) ->
  checks m s = (Return tt, s) ->
  in_transaction s = false -> connection s = true ->
  conn_execute BEGIN (engine s) = (inr tt, e2) ->
  cursor_execute (statement m) (parameters m) e2 = (inl cause, e3) ->
  conn_rollback e3 = (inr tt, e4) ->
  run_each ms (snd (run m s)) = (Return tt, s') ->
  txn_open (calls (snd (run m s))) = false /\
  in_transaction s' = true /\
  none_issued is_begin (new_calls (snd (run m s)) s') = true /\
  none_issued is_commit (new_calls (snd (run m s)) s') = true.
Proof.
  intros Hm Hck Hf Hc Hb He Hrb Hrun.
  destruct (failed_update_or_delete_breaks_flag Hm Hck Hf Hc Hb He Hrb)
    as [Hflag Hlog].
  destruct (run_each_inside_transaction ms _ Hflag Hrun)
    as (Hf' & added & Hcalls & Hnb & Hnc & _).
  rewrite (new_calls_app _ _ _ Hcalls). auto.
Qed.

(** ** Edges of the transaction controls *)

(** X14.  [begin_transaction] is not guarded by the flag: with the flag set it
    still issues BEGIN, and the flag is set afterwards whether the engine
    accepts or refuses.  [rollback_transaction] with the flag clear does
    nothing at all; [commit_transaction] with the flag clear still issues
    the commit, and the flag stays clear on every path. *)
Theorem controls_edge_cases s :
  (in_transaction s = true ->
   in_transaction (snd (begin_transaction s)) = true /\
   (connection s = true ->
    exists ok, new_calls s (snd (begin_transaction s)) = [Ev (ConnExecute BEGIN) ok])) /\
  (in_transaction s = false ->
   rollback_transaction s = (Return tt, s) /\
   in_transaction (snd (commit_transaction s)) = false /\
   (connection s = true ->
    exists ok rest,
      new_calls s (snd (commit_transaction s)) = Ev ConnCommit ok :: rest)).
Proof.
  split.
  - intros Hf. split.
    + unfold begin_transaction, try_sqlite, bind, connection_execute,
        on_connection.
      all_paths; auto.
    + intros Hc.
      unfold begin_transaction, try_sqlite, bind, connection_execute,
        on_connection.
      rewrite Hc.
      destruct (conn_execute BEGIN (engine s)) as [[msg|[]] e1]; unfold_store;
        eexists; apply new_calls_app; reflexivity.
  - intros Hf. split; [|split].
    + unfold rollback_transaction, bind, read_in_transaction.
      rewrite Hf. reflexivity.
    + unfold commit_transaction, try_sqlite, bind, connection_commit,
        connection_rollback, on_connection.
      all_paths; auto.
    + intros Hc.
      unfold commit_transaction, try_sqlite, bind, connection_commit,
        connection_rollback, on_connection.
      rewrite Hc.
      destruct (conn_commit (engine s)) as [[msg|[]] e1]; unfold_store.
      * rewrite Hc.
        destruct (conn_rollback e1) as [[msg'|[]] e2]; unfold_store;
          eexists; eexists; apply new_calls_app; reflexivity.
      * eexists; eexists; apply new_calls_app; reflexivity.
Qed.

(** ** What the binding paths put in the text *)

(** X18.  The statements of [create], [get], [filter], [exists], [count] and
    [update] are built from the table name and the column names alone: two
    calls that name the same columns in the same order send the same text,
    whatever the values, and the values travel as parameters. *)
Theorem bound_statements_ignore_values (t : string)
  (filters1 filters2 kw1 kw2 : kwargs) :
  keys kw1 = keys kw2 -> keys filters1 = keys filters2 ->
  create_query t kw1 = create_query t kw2 /\
  get_query t kw1 = get_query t kw2 /\
  filter_query t kw1 = filter_query t kw2 /\
  exists_query t kw1 = exists_query t kw2 /\
  count_query t kw1 = count_query t kw2 /\
  update_query t filters1 kw1 = update_query t filters2 kw2 /\
  parameters (Insert t kw1) = values kw1 /\
  parameters (Update t filters1 kw1) = (values kw1 ++ values filters1)%list.
Proof.
  intros Hk Hf.
  assert (Ht : truthy kw1 = truthy kw2).
  { destruct kw1, kw2; try reflexivity; discriminate. }
  assert (Hq : map (fun _ : value => "?") (values kw1)
               = map (fun _ : value => "?") (values kw2)).
  { clear Ht. unfold keys, values in *. revert kw2 Hk.
    induction kw1 as [|a kw1 IH]; intros [|b kw2] Hk; try discriminate.
    - reflexivity.
    - simpl in *. injection Hk as _ Hk. rewrite (IH kw2 Hk). reflexivity. }
  unfold create_query, get_query, filter_query, exists_query, count_query,
    update_query, placeholders_eq.
  rewrite Hk, Hf, Ht, Hq. repeat split.
Qed.

(** ** What [delete] does with values *)

(** X19.  [delete] only sees the text of each value: any filter set and the same
    set with every value replaced by its [str] as a string give the same
    statement, the same call and the same result, so [delete(age=30)] and
    [delete(age='30')] cannot be told apart and [None] is sent as the text
    ['None']. *)
Theorem delete_sees_text_only (t : string) (kw : kwargs) s :
  delete_query t (as_text kw) = delete_query t kw /\
  delete t (as_text kw) s = delete t kw s.
Proof.
  assert (Hq : delete_query t (as_text kw) = delete_query t kw).
  { unfold delete_query, as_text. rewrite map_map.
    rewrite (map_ext _ (fun '(col, val) => col ++ "='" ++ py_str val ++ "'"));
      [reflexivity|].
    intros [col v]. destruct v as [|[|]| | | |]; reflexivity. }
  split; [exact Hq|]. unfold delete. rewrite Hq. reflexivity.
Qed.

End Further.

(** * Concrete runs for the further properties *)

Section FurtherRuns.

Import Scripted Cases.

Lemma schema_lists_engine_columns_witness :
  fst (get_table_schema "users" fresh) = Return users_dict /\
  fst (introspect_table "users" fresh) = Return users_schema /\
  (forall name ty,
     dict_get name users_dict = Some ty ->
     exists r, In r users_schema /\ nth_error r 1 = Some name /\
               nth_error r 2 = Some ty) /\
  truthy users_dict = truthy users_schema.
Proof.
  assert (Hg : fst (get_table_schema "users" fresh) = Return users_dict)
    by reflexivity.
  destruct (@schema_lists_engine_columns _ _ "users" fresh users_dict Hg)
    as (rows & Hi & Hsound & _ & Htruthy).
  split; [exact Hg|].
  assert (Hrows : rows = users_schema) by (injection Hi as <-; reflexivity).
  subst rows. repeat (split; [assumption || reflexivity|]). exact Htruthy.
Defined.

Lemma create_checks_pass_iff_witness :
  fst (create_checks "users" alice fresh) = Return tt /\
  fst (create_checks "users" [("age", VNone)] fresh) <> Return tt /\
  fst (create_checks "users" [("age", VStr "30")] fresh) <> Return tt /\
  fst (create_checks "users" [("email", VStr "a@b.c")] fresh) <> Return tt.
Proof.
  assert (Hascii : forall schema,
             fst (get_table_schema "users" fresh) = Return schema ->
             declared_in_ascii schema = true).
  { intros schema Hs. vm_compute in Hs. injection Hs as <-. reflexivity. }
  split; [|split; [|split]].
  - apply (proj2 (@create_checks_pass_iff _ _ "users" alice fresh Hascii)).
    split; [reflexivity|]. exists users_dict.
    split; [reflexivity|]. split; [reflexivity|].
    intros col v [[= <- <-]|[[= <- <-]|[]]];
      [exists "TEXT"|exists "INTEGER"]; split; reflexivity.
  - intros Hok.
    apply (proj1 (@create_checks_pass_iff _ _ "users" [("age", VNone)] fresh Hascii))
      in Hok.
    destruct Hok as (_ & schema & [= <-] & _ & Hall).
    destruct (Hall "age" VNone (or_introl eq_refl)) as (d & [= <-] & Hacc).
    discriminate.
  - intros Hok.
    apply (proj1 (@create_checks_pass_iff _ _ "users" [("age", VStr "30")] fresh
                    Hascii)) in Hok.
    destruct Hok as (_ & schema & [= <-] & _ & Hall).
    destruct (Hall "age" (VStr "30") (or_introl eq_refl)) as (d & [= <-] & Hacc).
    discriminate.
  - intros Hok.
    apply (proj1 (@create_checks_pass_iff _ _ "users" [("email", VStr "a@b.c")] fresh
                    Hascii)) in Hok.
    destruct Hok as (_ & schema & [= <-] & _ & Hall).
    destruct (Hall "email" (VStr "a@b.c") (or_introl eq_refl)) as (d & [=] & _).
Defined.

Lemma create_type_test_edges_witness :
  dict_get (VStr "age") users_dict = Some (VStr "INTEGER") /\
  ascii_only "INTEGER" = true /\
  fst (check_column "users" users_dict "age" VNone fresh) <> Return tt /\
  fst (check_column "users" users_dict "age" (VBool true) fresh) = Return tt /\
  fst (check_column "users" users_dict "name" (VBool true) fresh) =
    Raise (TypeError "Value for column 'name' should be of type TEXT").
Proof.
  destruct (@create_type_test_edges _ "users" users_dict "age" "INTEGER" fresh
              eq_refl eq_refl) as (Hnone & Hbool & _).
  destruct (@create_type_test_edges _ "users" users_dict "name" "TEXT" fresh
              eq_refl eq_refl) as (_ & _ & Hrefused & _).
  split; [reflexivity|]. split; [reflexivity|]. split; [|split].
  - intros Hok. apply Hnone in Hok. destruct Hok as [Hne _]. discriminate.
  - apply Hbool. left. reflexivity.
  - apply (Hrefused true). reflexivity.
Defined.

Lemma reads_issue_one_statement_witness :
  let r := Get "users" [("name", VStr "Alice")] in
  flag_agrees in_caller_transaction /\
  flag_agrees (after_read r in_caller_transaction) /\
  in_transaction (after_read r in_caller_transaction) = true /\
  exists ok,
    new_calls in_caller_transaction (after_read r in_caller_transaction) =
      [Ev (CursorExecute "SELECT * FROM users WHERE name=? LIMIT 1;" [VStr "Alice"]) ok].
Proof.
  intros r.
  destruct (@reads_issue_one_statement _ _ r in_caller_transaction)
    as (Hf & _ & Hcalls & Hkeep).
  assert (Hinv : flag_agrees in_caller_transaction) by reflexivity.
  split; [exact Hinv|]. split; [exact (Hkeep Hinv)|].
  split; [exact Hf|exact Hcalls].
Defined.

Lemma engine_errors_wrapped_witness :
  fst (create_table "users" [("id", "INTEGER")] failing_disk) =
    Raise (PyException "Table creation failed: disk I/O error") /\
  fst (create_table "users" [("id", "INTEGER")] failing_disk)
    <> Raise (SqliteError "disk I/O error") /\
  fst (create "users" alice failing_disk) <> Raise (SqliteError "disk I/O error").
Proof.
  destruct (@engine_errors_wrapped _ _ "users" alice [("id", "INTEGER")])
    as (Hcreate & _ & _ & Htable & _).
  split; [reflexivity|]. split.
  - exact (Htable failing_disk "disk I/O error").
  - exact (Hcreate failing_disk "disk I/O error").
Defined.

Lemma rollback_error_masks_cause_witness :
  fst (commit_transaction failing_disk) = Raise (SqliteError "cannot rollback") /\
  fst (drop_table "users" failing_disk) = Raise (SqliteError "cannot rollback") /\
  fst (run update_ghosts failing_disk) = Raise (SqliteError "cannot rollback").
Proof.
  destruct (@rollback_error_masks_cause _ _ "disk I/O error" "cannot rollback")
    as (Hcommit & Hdrop & Hrun).
  split; [|split].
  - exact (proj1 (Hcommit failing_disk _ _ eq_refl eq_refl eq_refl)).
  - exact (Hdrop "users" failing_disk _ _ eq_refl eq_refl eq_refl).
  - exact (Hrun update_ghosts failing_disk failing_disk true _ _ _
             eq_refl eq_refl eq_refl eq_refl eq_refl).
Defined.

Lemma ddl_commits_behind_the_flag_witness :
  let r := create_table "pets" [("id", "INTEGER"); ("name", "TEXT")]
             in_caller_transaction in
  connection in_caller_transaction = true /\
  in_transaction in_caller_transaction = true /\
  fst r = Return tt /\
  in_transaction (snd r) = true /\
  txn_open (calls (snd r)) = false /\
  calls (snd r) =
    [begin_ok;
     Ev (CursorExecute "CREATE TABLE IF NOT EXISTS pets (id INTEGER, name TEXT);" [])
        true;
     commit_ok].
Proof.
  intros r.
  destruct (@ddl_commits_behind_the_flag _ _ "pets"
              [("id", "INTEGER"); ("name", "TEXT")] in_caller_transaction)
    as (Hflag & _ & Hcommit).
  pose (e1 := snd (cursor_execute
                     (create_table_query "pets" [("id", "INTEGER"); ("name", "TEXT")])
                     [] (engine in_caller_transaction))).
  assert (Hcm : conn_commit e1 = (inr tt, snd (conn_commit e1))) by reflexivity.
  destruct (Hcommit eq_refl e1 _ Hcm) as [Hcreate _].
  assert (He : cursor_execute
                 (create_table_query "pets" [("id", "INTEGER"); ("name", "TEXT")])
                 [] (engine in_caller_transaction) = (inr tt, e1)) by reflexivity.
  destruct (Hcreate He) as [Hrun Hlog].
  split; [reflexivity|]. split; [reflexivity|]. split; [|split; [|split]].
  - unfold r. rewrite Hrun. reflexivity.
  - exact Hflag.
  - exact Hlog.
  - unfold r. rewrite Hrun. reflexivity.
Defined.

Lemma ddl_failure_paths_witness :
  let locked_out :=
    init (users_db (rejecting "DROP TABLE IF EXISTS users;" "database is locked")) in
  shown (drop_table "users" locked_out) =
    (Raise (PyException "Table drop failed: database is locked"), false,
     [Ev (CursorExecute "DROP TABLE IF EXISTS users;" []) false; rollback_ok]) /\
  shown (create_table "users" [("id", "INTEGER")] failing_disk) =
    (Raise (PyException "Table creation failed: disk I/O error"), false,
     [Ev (CursorExecute "CREATE TABLE IF NOT EXISTS users (id INTEGER);" []) false]).
Proof.
  intros locked_out. split.
  - destruct (@ddl_failure_paths _ _ "users" [] locked_out "database is locked"
                (engine locked_out)) as (_ & _ & Hdrop).
    rewrite (Hdrop eq_refl eq_refl _ eq_refl). reflexivity.
  - destruct (@ddl_failure_paths _ _ "users" [("id", "INTEGER")] failing_disk
                "disk I/O error" (engine failing_disk)) as (_ & Hcreate & _).
    rewrite (Hcreate eq_refl). reflexivity.
Defined.

Lemma failure_inside_caller_transaction_witness :
  let s := snd (begin_transaction constrained) in
  in_transaction s = true /\
  shown (run (Insert "users" alice) s) =
    (Raise (PyException "Insertion failed: UNIQUE constraint failed: users.name"),
     false,
     [begin_ok; schema_lookup;
      Ev (CursorExecute insert_alice (values alice)) false; rollback_ok]) /\
  shown (run (Delete "ghosts" [("id", VInt 1)]) (snd (begin_transaction without_ghosts))) =
    (Raise (PyException "Deletion failed: no such table: ghosts"), true,
     [begin_ok; Ev (CursorExecute "DELETE FROM ghosts WHERE id='1';" []) false;
      rollback_ok]).
Proof.
  intros s. split; [reflexivity|]. split.
  - assert (Hck : checks (Insert "users" alice) s
                  = (Return tt, snd (checks (Insert "users" alice) s)))
      by reflexivity.
    rewrite (@failure_inside_caller_transaction _ _ (Insert "users" alice) s _
               "UNIQUE constraint failed: users.name" _ _
               Hck eq_refl eq_refl eq_refl eq_refl).
    reflexivity.
  - pose (s2 := snd (begin_transaction without_ghosts)).
    assert (Hf : in_transaction s2 = true) by reflexivity.
    assert (Hc : connection s2 = true) by reflexivity.
    assert (He : cursor_execute (statement (Delete "ghosts" [("id", VInt 1)]))
                   (parameters (Delete "ghosts" [("id", VInt 1)])) (engine s2)
                 = (inl "no such table: ghosts", engine s2)) by reflexivity.
    assert (Hr : conn_rollback (engine s2) = (inr tt, snd (conn_rollback (engine s2))))
      by reflexivity.
    change (snd (begin_transaction without_ghosts)) with s2.
    rewrite (@failure_inside_caller_transaction _ _
               (Delete "ghosts" [("id", VInt 1)]) s2 s2
               "no such table: ghosts" _ _ eq_refl Hf Hc He Hr).
    reflexivity.
Defined.

Lemma batch_stays_in_caller_transaction_witness :
  let s' := snd (run_each three_mutations in_caller_transaction) in
  in_transaction in_caller_transaction = true /\
  fst (run_each three_mutations in_caller_transaction) = Return tt /\
  in_transaction s' = true /\
  none_issued is_begin (new_calls in_caller_transaction s') = true /\
  none_issued is_commit (new_calls in_caller_transaction s') = true /\
  length (new_calls in_caller_transaction s') = 4%nat.
Proof.
  intros s'.
  assert (Hrun : run_each three_mutations in_caller_transaction = (Return tt, s'))
    by reflexivity.
  destruct (@batch_stays_in_caller_transaction _ _ three_mutations
              in_caller_transaction s' eq_refl Hrun) as (Hf & Hb & Hc & _).
  split; [reflexivity|]. split; [reflexivity|].
  split; [exact Hf|]. split; [exact Hb|]. split; [exact Hc|reflexivity].
Defined.

Lemma stuck_flag_disables_auto_commit_witness :
  let stuck := snd (run update_ghosts without_ghosts) in
  let s' := snd (run_each [Insert "users" alice] stuck) in
  in_transaction without_ghosts = false /\
  txn_open (calls stuck) = false /\
  in_transaction s' = true /\
  new_calls stuck s' =
    [schema_lookup; Ev (CursorExecute insert_alice (values alice)) true].
Proof.
  intros stuck s'.
  assert (Hm : forall t kw, update_ghosts <> Insert t kw) by discriminate.
  assert (Hrun : run_each [Insert "users" alice] stuck = (Return tt, s'))
    by reflexivity.
  pose (e2 := snd (conn_execute BEGIN (engine without_ghosts))).
  assert (Hb : conn_execute BEGIN (engine without_ghosts) = (inr tt, e2))
    by reflexivity.
  assert (He : cursor_execute (statement update_ghosts) (parameters update_ghosts) e2
               = (inl "no such table: ghosts", e2)) by reflexivity.
  assert (Hr : conn_rollback e2 = (inr tt, snd (conn_rollback e2))) by reflexivity.
  destruct (@stuck_flag_disables_auto_commit _ _ update_ghosts without_ghosts
              _ _ _ "no such table: ghosts" [Insert "users" alice] s'
              Hm eq_refl eq_refl eq_refl Hb He Hr Hrun)
    as (Hlog & Hf & _).
  split; [reflexivity|]. split; [exact Hlog|]. split; [exact Hf|reflexivity].
Defined.

Lemma controls_edge_cases_witness :
  in_transaction in_caller_transaction = true /\
  shown (begin_transaction in_caller_transaction) =
    (Raise (PyException
              "Transaction start failed: cannot start a transaction within a transaction"),
     true, [begin_ok; Ev (ConnExecute BEGIN) false]) /\
  rollback_transaction fresh = (Return tt, fresh) /\
  shown (commit_transaction fresh) = (Return tt, false, [commit_ok]).
Proof.
  destruct (@controls_edge_cases _ _ in_caller_transaction) as [Hset _].
  destruct (Hset eq_refl) as [Hflag _].
  destruct (@controls_edge_cases _ _ fresh) as [_ Hclear].
  destruct (Hclear eq_refl) as (Hnoop & Hcommit & _).
  split; [reflexivity|]. split; [|split].
  - unfold shown. rewrite Hflag. reflexivity.
  - exact Hnoop.
  - unfold shown. rewrite Hcommit. reflexivity.
Defined.

Lemma flag_exact_while_updates_return_witness :
  let s1 := snd (begin_transaction fresh) in
  let s2 := snd (create "users" alice s1) in
  let s3 := after_read (Count "users" []) s2 in
  let s4 := snd (commit_transaction s3) in
  call_steps fresh s4 /\ flag_agrees s4 /\ in_transaction s4 = false.
Proof.
  intros s1 s2 s3 s4.
  assert (Hsteps : call_steps fresh s4).
  { apply steps_more with s3; [|apply step_commit].
    apply steps_more with s2; [|apply step_read].
    apply steps_more with s1; [|apply step_create].
    apply steps_more with fresh; [apply steps_none|apply step_begin]. }
  assert (H0 : flag_agrees fresh) by reflexivity.
  split; [exact Hsteps|]. split; [|reflexivity].
  exact (@flag_exact_while_updates_return _ _ fresh s4 H0 Hsteps).
Defined.

Lemma bound_statements_ignore_values_witness :
  let kw1 := [("name", VStr "Alice")] in
  let kw2 := [("name", VStr "x' OR '1'='1")] in
  keys kw1 = keys kw2 /\
  get_query "users" kw1 = get_query "users" kw2 /\
  create_query "users" kw1 = create_query "users" kw2 /\
  update_query "users" kw1 kw1 = update_query "users" kw2 kw2 /\
  get_query "users" kw2 = "SELECT * FROM users WHERE name=? LIMIT 1;".
Proof.
  intros kw1 kw2.
  destruct (bound_statements_ignore_values "users" kw1 kw2 kw1 kw2 eq_refl eq_refl)
    as (Hcreate & Hget & _ & _ & _ & Hupdate & _).
  split; [reflexivity|]. split; [exact Hget|]. split; [exact Hcreate|].
  split; [exact Hupdate|reflexivity].
Defined.

End FurtherRuns.
